(** * rnsh listener session (src/rnsh/session.py)

    A shallow embedding of [ListenerSession]: the per-link protocol state
    machine, its timeout watchdogs, the authentication gate, command
    resolution and the [pump] stream multiplexer.

    Python objects that are shared by reference (the class-level
    [default_command] list and the command-line lists carried by
    messages) live in an explicit object store, so that aliasing is
    visible.  Methods are written in a state-and-exception monad over the
    program state seen by one session. *)

From Stdlib Require Import ZArith QArith String List Bool Lia.
From Stdlib Require Strings.Byte.
From stdpp Require Import base option list gmap.

Local Open Scope string_scope.
Local Open Scope Z_scope.
Delimit Scope byte_scope with byte.

(** ** Python helpers *)

Module Py.

(** [max(a, b)] on numbers: the first argument unless the second is
    strictly greater.  Times are modelled as rationals. *)
Definition max (a b : Q) : Q := if Qle_bool b a then a else b.

(** Clamp a slice bound [k] against a sequence of length [n], as the
    slicing protocol does: negative bounds count from the end. *)
Definition slice_index (k : Z) (n : nat) : nat :=
  if k <? 0 then Z.to_nat (Z.max 0 (Z.of_nat n + k))
  else Nat.min (Z.to_nat k) n.

(** [l[:k]] *)
Definition slice_to {A} (l : list A) (k : Z) : list A :=
  take (slice_index k (length l)) l.

(** [l[k:]] *)
Definition slice_from {A} (l : list A) (k : Z) : list A :=
  drop (slice_index k (length l)) l.

(** Truthiness of an optional list: [None] and [[]] are falsy. *)
Definition truthy_list {A} (o : option (list A)) : bool :=
  match o with
  | Some (_ :: _) => true
  | _ => false
  end.

(** Truthiness of an optional string. *)
Definition truthy_str (o : option string) : bool :=
  match o with
  | Some s => negb (String.eqb s EmptyString)
  | None => false
  end.

(** [list.remove(x)]: drops the first occurrence, [None] stands for the
    [ValueError] raised when there is none. *)
Fixpoint list_remove (x : nat) (l : list nat) : option (list nat) :=
  match l with
  | [] => None
  | y :: l' =>
      if Nat.eqb y x then Some l'
      else match list_remove x l' with
           | Some r => Some (y :: r)
           | None => None
           end
  end.

End Py.

(** ** Data model *)

Inductive LSState :=
| LSSTATE_WAIT_IDENT
| LSSTATE_WAIT_VERS
| LSSTATE_WAIT_CMD
| LSSTATE_RUNNING
| LSSTATE_ERROR
| LSSTATE_TEARDOWN.

Definition LSState_eqb (a b : LSState) : bool :=
  match a, b with
  | LSSTATE_WAIT_IDENT, LSSTATE_WAIT_IDENT
  | LSSTATE_WAIT_VERS, LSSTATE_WAIT_VERS
  | LSSTATE_WAIT_CMD, LSSTATE_WAIT_CMD
  | LSSTATE_RUNNING, LSSTATE_RUNNING
  | LSSTATE_ERROR, LSSTATE_ERROR
  | LSSTATE_TEARDOWN, LSSTATE_TEARDOWN => true
  | _, _ => false
  end.

(** [state.name] *)
Definition LSState_name (s : LSState) : string :=
  match s with
  | LSSTATE_WAIT_IDENT => "LSSTATE_WAIT_IDENT"
  | LSSTATE_WAIT_VERS => "LSSTATE_WAIT_VERS"
  | LSSTATE_WAIT_CMD => "LSSTATE_WAIT_CMD"
  | LSSTATE_RUNNING => "LSSTATE_RUNNING"
  | LSSTATE_ERROR => "LSSTATE_ERROR"
  | LSSTATE_TEARDOWN => "LSSTATE_TEARDOWN"
  end.

(** [self.state] starts as [None] in [__init__]; [==] on it. *)
Definition state_eqb (a b : option LSState) : bool :=
  match a, b with
  | Some x, Some y => LSState_eqb x y
  | None, None => true
  | _, _ => false
  end.

(** Addresses of list objects in the store. *)
Definition loc := positive.

(** Modelled from the spec: the stream tag of a stream-data message; the
    constants [STREAM_ID_STDIN], [STREAM_ID_STDOUT] and [STREAM_ID_STDERR]
    are declared in rnsh.protocol. *)
Inductive StreamId := STREAM_ID_STDIN | STREAM_ID_STDOUT | STREAM_ID_STDERR.

Definition StreamId_eqb (a b : StreamId) : bool :=
  match a, b with
  | STREAM_ID_STDIN, STREAM_ID_STDIN
  | STREAM_ID_STDOUT, STREAM_ID_STDOUT
  | STREAM_ID_STDERR, STREAM_ID_STDERR => true
  | _, _ => false
  end.

(** Modelled from the spec: the message classes of rnsh.protocol, with the
    fields the session reads or writes.  A command line is a reference to
    a list object (or [None]). *)
Inductive Message :=
| VersionInfoMessage (sw_version : string) (protocol_version : Z)
| ExecuteCommandMesssage (cmdline : option loc)
    (pipe_stdin pipe_stdout pipe_stderr : bool)
    (tcflags : option (list Z)) (term : option string)
    (rows cols hpix vpix : Z)
| WindowSizeMessage (rows cols hpix vpix : Z)
| StreamDataMessage (stream_id : StreamId) (data : list Byte.byte) (eof : bool)
| NoopMessage
| CommandExitedMessage (return_code : Z)
| ErrorMessage (msg : string) (fatal : bool).

Set Primitive Projections.

(** A peer identity; only its [hash] is read. *)
Record Identity := { hash : list Byte.byte }.

(** The child process handle (rnsh.process.CallbackSubprocess), seen
    through the attributes and calls the session uses. *)
Record CallbackSubprocess := {
  argv : list string;
  env_TERM : option string;
  env_RNS_REMOTE_IDENTITY : string;
  proc_stdin_is_pipe : bool;
  proc_stdout_is_pipe : bool;
  proc_stderr_is_pipe : bool;
  running : bool;
  stdout_eof : bool;
  stderr_eof : bool;
  winsize : option (Z * Z * Z * Z);
  written : list (list Byte.byte);
  stdin_closed : nat;
  terminate_calls : nat
}.

(** Instance attributes of [ListenerSession]. *)
Record ListenerSession := {
  state : option LSState;
  remote_identity : option Identity;
  term : option string;
  stdin_is_pipe : bool;
  stdout_is_pipe : bool;
  stderr_is_pipe : bool;
  tcflags : option (list Z);
  cmdline : option loc;
  rows : Z;
  cols : Z;
  hpix : Z;
  vpix : Z;
  stdout_buf : list Byte.byte;
  stdout_eof_sent : bool;
  stderr_buf : list Byte.byte;
  stderr_eof_sent : bool;
  return_code : option Z;
  return_code_sent : bool;
  process : option CallbackSubprocess
}.

(** Class attributes of [ListenerSession], shared by all sessions.  The
    registry holds session ids; [default_command] is a reference. *)
Record ClassAttrs := {
  sessions : list nat;
  allowed_identity_hashes : list (list Byte.byte);
  allow_all : bool;
  allow_remote_command : bool;
  default_command : loc;
  remote_cmd_as_args : bool
}.

(** The shared Messenger: whether it reports the outlet ready, whether
    the next [send] raises, and the messages handed to it so far. *)
Record Messenger := {
  outlet_ready : bool;
  send_raises : bool;
  sent : list Message;
  retries_cleared : nat
}.

(** The session's outlet: link properties, registered callbacks and the
    number of [teardown] calls. *)
Record Outlet := {
  outlet_id : nat;
  mdu : Z;
  rtt : Q;
  initiator_identified_callback : bool;
  link_closed_callback : bool;
  packet_received_callback : bool;
  teardown_raises : bool;
  teardowns : nat
}.

(** The closures handed to the event loop, defunctionalised.  A fail
    condition [lambda: self.state == v] is represented by the captured
    value [v]. *)
Inductive Task :=
| check_protocol_timeout_task (fail_condition : option LSState) (name : string)
| prune_task.

(** The asyncio loop: [soon] holds the [call_inner] closures queued by
    [call_soon_threadsafe] (function and delay), [later] the timers set
    by [call_later]. *)
Record EventLoop := {
  soon : list (Task * Q);
  later : list (Q * Task)
}.

(** The program state seen by one session. *)
Record World := {
  self : ListenerSession;
  self_id : nat;
  cls : ClassAttrs;
  objs : gmap loc (list string);
  messenger : Messenger;
  outlet : Outlet;
  loop : EventLoop;
  spawn_raises : bool;
  environ_TERM : option string
}.

Unset Primitive Projections.

(** ** Attribute assignment

    [Upd.x v r] is the record [r] with attribute [x] set to [v]; the
    updaters of the program state take the function to apply to the
    component. *)

Module Upd.

Definition self (f : ListenerSession -> ListenerSession) (w : World) : World :=
  let '(Build_World a b c d e g h i j) := w in Build_World (f a) b c d e g h i j.
Definition cls (f : ClassAttrs -> ClassAttrs) (w : World) : World :=
  let '(Build_World a b c d e g h i j) := w in Build_World a b (f c) d e g h i j.
Definition objs (f : gmap loc (list string) -> gmap loc (list string)) (w : World) : World :=
  let '(Build_World a b c d e g h i j) := w in Build_World a b c (f d) e g h i j.
Definition messenger (f : Messenger -> Messenger) (w : World) : World :=
  let '(Build_World a b c d e g h i j) := w in Build_World a b c d (f e) g h i j.
Definition outlet (f : Outlet -> Outlet) (w : World) : World :=
  let '(Build_World a b c d e g h i j) := w in Build_World a b c d e (f g) h i j.
Definition loop (f : EventLoop -> EventLoop) (w : World) : World :=
  let '(Build_World a b c d e g h i j) := w in Build_World a b c d e g (f h) i j.

Definition state (v : option LSState) (s : ListenerSession) : ListenerSession :=
  let '(Build_ListenerSession _ a2 a3 a4 a5 a6 a7 a8 a9 a10 a11 a12 a13 a14 a15 a16 a17 a18 a19) := s in
  Build_ListenerSession v a2 a3 a4 a5 a6 a7 a8 a9 a10 a11 a12 a13 a14 a15 a16 a17 a18 a19.
Definition remote_identity (v : option Identity) (s : ListenerSession) : ListenerSession :=
  let '(Build_ListenerSession a1 _ a3 a4 a5 a6 a7 a8 a9 a10 a11 a12 a13 a14 a15 a16 a17 a18 a19) := s in
  Build_ListenerSession a1 v a3 a4 a5 a6 a7 a8 a9 a10 a11 a12 a13 a14 a15 a16 a17 a18 a19.
Definition term (v : option string) (s : ListenerSession) : ListenerSession :=
  let '(Build_ListenerSession a1 a2 _ a4 a5 a6 a7 a8 a9 a10 a11 a12 a13 a14 a15 a16 a17 a18 a19) := s in
  Build_ListenerSession a1 a2 v a4 a5 a6 a7 a8 a9 a10 a11 a12 a13 a14 a15 a16 a17 a18 a19.
Definition pipes (i o e : bool) (s : ListenerSession) : ListenerSession :=
  let '(Build_ListenerSession a1 a2 a3 _ _ _ a7 a8 a9 a10 a11 a12 a13 a14 a15 a16 a17 a18 a19) := s in
  Build_ListenerSession a1 a2 a3 i o e a7 a8 a9 a10 a11 a12 a13 a14 a15 a16 a17 a18 a19.
Definition tcflags (v : option (list Z)) (s : ListenerSession) : ListenerSession :=
  let '(Build_ListenerSession a1 a2 a3 a4 a5 a6 _ a8 a9 a10 a11 a12 a13 a14 a15 a16 a17 a18 a19) := s in
  Build_ListenerSession a1 a2 a3 a4 a5 a6 v a8 a9 a10 a11 a12 a13 a14 a15 a16 a17 a18 a19.
Definition cmdline (v : option loc) (s : ListenerSession) : ListenerSession :=
  let '(Build_ListenerSession a1 a2 a3 a4 a5 a6 a7 _ a9 a10 a11 a12 a13 a14 a15 a16 a17 a18 a19) := s in
  Build_ListenerSession a1 a2 a3 a4 a5 a6 a7 v a9 a10 a11 a12 a13 a14 a15 a16 a17 a18 a19.
Definition geometry (r c h v : Z) (s : ListenerSession) : ListenerSession :=
  let '(Build_ListenerSession a1 a2 a3 a4 a5 a6 a7 a8 _ _ _ _ a13 a14 a15 a16 a17 a18 a19) := s in
  Build_ListenerSession a1 a2 a3 a4 a5 a6 a7 a8 r c h v a13 a14 a15 a16 a17 a18 a19.
Definition stdout_buf (v : list Byte.byte) (s : ListenerSession) : ListenerSession :=
  let '(Build_ListenerSession a1 a2 a3 a4 a5 a6 a7 a8 a9 a10 a11 a12 _ a14 a15 a16 a17 a18 a19) := s in
  Build_ListenerSession a1 a2 a3 a4 a5 a6 a7 a8 a9 a10 a11 a12 v a14 a15 a16 a17 a18 a19.
Definition stdout_eof_sent (v : bool) (s : ListenerSession) : ListenerSession :=
  let '(Build_ListenerSession a1 a2 a3 a4 a5 a6 a7 a8 a9 a10 a11 a12 a13 _ a15 a16 a17 a18 a19) := s in
  Build_ListenerSession a1 a2 a3 a4 a5 a6 a7 a8 a9 a10 a11 a12 a13 v a15 a16 a17 a18 a19.
Definition stderr_buf (v : list Byte.byte) (s : ListenerSession) : ListenerSession :=
  let '(Build_ListenerSession a1 a2 a3 a4 a5 a6 a7 a8 a9 a10 a11 a12 a13 a14 _ a16 a17 a18 a19) := s in
  Build_ListenerSession a1 a2 a3 a4 a5 a6 a7 a8 a9 a10 a11 a12 a13 a14 v a16 a17 a18 a19.
Definition stderr_eof_sent (v : bool) (s : ListenerSession) : ListenerSession :=
  let '(Build_ListenerSession a1 a2 a3 a4 a5 a6 a7 a8 a9 a10 a11 a12 a13 a14 a15 _ a17 a18 a19) := s in
  Build_ListenerSession a1 a2 a3 a4 a5 a6 a7 a8 a9 a10 a11 a12 a13 a14 a15 v a17 a18 a19.
Definition return_code (v : option Z) (s : ListenerSession) : ListenerSession :=
  let '(Build_ListenerSession a1 a2 a3 a4 a5 a6 a7 a8 a9 a10 a11 a12 a13 a14 a15 a16 _ a18 a19) := s in
  Build_ListenerSession a1 a2 a3 a4 a5 a6 a7 a8 a9 a10 a11 a12 a13 a14 a15 a16 v a18 a19.
Definition return_code_sent (v : bool) (s : ListenerSession) : ListenerSession :=
  let '(Build_ListenerSession a1 a2 a3 a4 a5 a6 a7 a8 a9 a10 a11 a12 a13 a14 a15 a16 a17 _ a19) := s in
  Build_ListenerSession a1 a2 a3 a4 a5 a6 a7 a8 a9 a10 a11 a12 a13 a14 a15 a16 a17 v a19.
Definition process (v : option CallbackSubprocess) (s : ListenerSession) : ListenerSession :=
  let '(Build_ListenerSession a1 a2 a3 a4 a5 a6 a7 a8 a9 a10 a11 a12 a13 a14 a15 a16 a17 a18 _) := s in
  Build_ListenerSession a1 a2 a3 a4 a5 a6 a7 a8 a9 a10 a11 a12 a13 a14 a15 a16 a17 a18 v.

Definition sessions (v : list nat) (c : ClassAttrs) : ClassAttrs :=
  let '(Build_ClassAttrs _ a2 a3 a4 a5 a6) := c in Build_ClassAttrs v a2 a3 a4 a5 a6.

Definition sent (v : list Message) (m : Messenger) : Messenger :=
  let '(Build_Messenger a1 a2 _ a4) := m in Build_Messenger a1 a2 v a4.
Definition retries_cleared (v : nat) (m : Messenger) : Messenger :=
  let '(Build_Messenger a1 a2 a3 _) := m in Build_Messenger a1 a2 a3 v.

Definition initiator_identified_callback (v : bool) (o : Outlet) : Outlet :=
  let '(Build_Outlet a1 a2 a3 _ a5 a6 a7 a8) := o in Build_Outlet a1 a2 a3 v a5 a6 a7 a8.
Definition link_closed_callback (v : bool) (o : Outlet) : Outlet :=
  let '(Build_Outlet a1 a2 a3 a4 _ a6 a7 a8) := o in Build_Outlet a1 a2 a3 a4 v a6 a7 a8.
Definition packet_received_callback (v : bool) (o : Outlet) : Outlet :=
  let '(Build_Outlet a1 a2 a3 a4 a5 _ a7 a8) := o in Build_Outlet a1 a2 a3 a4 a5 v a7 a8.
Definition teardowns (v : nat) (o : Outlet) : Outlet :=
  let '(Build_Outlet a1 a2 a3 a4 a5 a6 a7 _) := o in Build_Outlet a1 a2 a3 a4 a5 a6 a7 v.

Definition running (v : bool) (p : CallbackSubprocess) : CallbackSubprocess :=
  let '(Build_CallbackSubprocess a1 a2 a3 a4 a5 a6 _ a8 a9 a10 a11 a12 a13) := p in
  Build_CallbackSubprocess a1 a2 a3 a4 a5 a6 v a8 a9 a10 a11 a12 a13.
Definition winsize (v : option (Z * Z * Z * Z)) (p : CallbackSubprocess) : CallbackSubprocess :=
  let '(Build_CallbackSubprocess a1 a2 a3 a4 a5 a6 a7 a8 a9 _ a11 a12 a13) := p in
  Build_CallbackSubprocess a1 a2 a3 a4 a5 a6 a7 a8 a9 v a11 a12 a13.
Definition written (v : list (list Byte.byte)) (p : CallbackSubprocess) : CallbackSubprocess :=
  let '(Build_CallbackSubprocess a1 a2 a3 a4 a5 a6 a7 a8 a9 a10 _ a12 a13) := p in
  Build_CallbackSubprocess a1 a2 a3 a4 a5 a6 a7 a8 a9 a10 v a12 a13.
Definition stdin_closed (v : nat) (p : CallbackSubprocess) : CallbackSubprocess :=
  let '(Build_CallbackSubprocess a1 a2 a3 a4 a5 a6 a7 a8 a9 a10 a11 _ a13) := p in
  Build_CallbackSubprocess a1 a2 a3 a4 a5 a6 a7 a8 a9 a10 a11 v a13.
Definition terminate_calls (v : nat) (p : CallbackSubprocess) : CallbackSubprocess :=
  let '(Build_CallbackSubprocess a1 a2 a3 a4 a5 a6 a7 a8 a9 a10 a11 a12 _) := p in
  Build_CallbackSubprocess a1 a2 a3 a4 a5 a6 a7 a8 a9 a10 a11 a12 v.

End Upd.

(** ** The method monad: state and exceptions *)

(** The exception classes that occur; all derive from [Exception]. *)
Inductive Exception :=
| AttributeError
| ValueError
| LinkError
| OSError
| DecodeError.

Inductive Result (A : Type) :=
| Return (a : A)
| Raise (e : Exception).
Arguments Return {A} a.
Arguments Raise {A} e.

Definition M (A : Type) : Type := World -> World * Result A.

#[export] Instance M_ret : MRet M := fun A a w => (w, Return a).

#[export] Instance M_bind : MBind M := fun A B k m w =>
  match m w with
  | (w', Return a) => k a w'
  | (w', Raise e) => (w', Raise e)
  end.

Definition raise {A} (e : Exception) : M A := fun w => (w, Raise e).
Definition gets {A} (f : World -> A) : M A := fun w => (w, Return (f w)).
Definition modify (f : World -> World) : M unit := fun w => (f w, Return tt).
Definition pass : M unit := mret tt.

(** [try: body except <classes>: handler] *)
Definition try_except {A} (body : M A) (catches : Exception -> bool)
    (handler : Exception -> M A) : M A := fun w =>
  match body w with
  | (w', Raise e) => if catches e then handler e w' else (w', Raise e)
  | r => r
  end.

Definition any_Exception (e : Exception) : bool := true.

Definition only_ValueError (e : Exception) : bool :=
  match e with ValueError => true | _ => false end.

(** [with contextlib.suppress(<classes>): body] *)
Definition suppress (catches : Exception -> bool) (body : M unit) : M unit :=
  try_except body catches (fun _ => pass).

Definition exec {A} (m : M A) (w : World) : World := fst (m w).
Definition eval {A} (m : M A) (w : World) : Result A := snd (m w).

(** Attribute access on a session attribute that may be [None]. *)
Definition attr {A B} (o : option A) (f : A -> B) : M B :=
  match o with
  | Some a => mret (f a)
  | None => raise AttributeError
  end.

Definition set_self (f : ListenerSession -> ListenerSession) : M unit :=
  modify (Upd.self f).

(** A method call on [self.process] that updates the handle. *)
Definition process_call (f : CallbackSubprocess -> CallbackSubprocess) : M unit :=
  p ← gets (fun w => process (self w));
  match p with
  | Some h => set_self (Upd.process (Some (f h)))
  | None => raise AttributeError
  end.

Fixpoint bytes_eqb (a b : list Byte.byte) : bool :=
  match a, b with
  | [], [] => true
  | x :: a', y :: b' => Byte.eqb x y && bytes_eqb a' b'
  | _, _ => false
  end.

(** [h in hashes] *)
Definition hash_in (h : list Byte.byte) (hashes : list (list Byte.byte)) : bool :=
  existsb (bytes_eqb h) hashes.

(** ** Collaborators *)

(** [Messenger.send(outlet, message)] *)
Definition Messenger_send (message : Message) : M unit :=
  m ← gets messenger;
  if send_raises m then raise LinkError
  else modify (Upd.messenger (Upd.sent (sent m ++ [message]))).

(** [Messenger.is_outlet_ready(outlet)] *)
Definition Messenger_is_outlet_ready : M bool :=
  gets (fun w => outlet_ready (messenger w)).

(** [Messenger.clear_retries(outlet)] *)
Definition Messenger_clear_retries : M unit :=
  modify (Upd.messenger (fun m => Upd.retries_cleared (S (retries_cleared m)) m)).

(** [outlet.teardown()] *)
Definition Outlet_teardown : M unit :=
  modify (Upd.outlet (fun o => Upd.teardowns (S (teardowns o)) o)) ;;
  o ← gets outlet;
  if teardown_raises o then raise LinkError else pass.

(** ** ListenerSession methods *)

(** [_terminated] *)
Definition _terminated (return_code : Z) : M unit :=
  set_self (Upd.return_code (Some return_code)).

(** [_call]: queue [call_inner] on the loop. *)
Definition _call (func : Task) (delay : Q) : M unit :=
  modify (Upd.loop (fun l => {| soon := soon l ++ [(func, delay)]; later := later l |})).

(** [_set_state] *)
Definition _set_state (st : LSState) (timeout_factor : option Q) : M unit :=
  r ← gets (fun w => rtt (outlet w));
  let timeout :=
    match timeout_factor with
    | Some f => Some (Py.max (r * f) (Py.max (r * 2) 10))
    | None => None
    end in
  orig_state ← gets (fun w => state (self w));
  set_self (Upd.state (Some st)) ;;
  match timeout with
  | Some t => _call (check_protocol_timeout_task orig_state (LSState_name st)) t
  | None => pass
  end.

(** [send] *)
Definition send (message : Message) : M unit := Messenger_send message.

(** [_terminate_process] *)
Definition _terminate_process : M unit :=
  suppress any_Exception (
    p ← gets (fun w => process (self w));
    match p with
    | Some h =>
        if running h
        then process_call (fun h => Upd.terminate_calls (S (terminate_calls h)) h)
        else pass
    | None => pass
    end).

(** [terminate] *)
Definition terminate (error : option string) : M unit :=
  suppress any_Exception (
    st ← gets (fun w => state (self w));
    (if Py.truthy_str error && negb (state_eqb st (Some LSSTATE_TEARDOWN))
     then suppress any_Exception (send (ErrorMessage (default EmptyString error) true))
     else pass) ;;
    set_self (Upd.state (Some LSSTATE_ERROR)) ;;
    _terminate_process ;;
    r ← gets (fun w => rtt (outlet w));
    _call prune_task (Py.max (r * 3) 5)).

(** [_protocol_error] *)
Definition _protocol_error (name : string) : M unit :=
  terminate (Some ("Protocol error (" ++ name ++ ")")).

(** [_protocol_timeout_error] *)
Definition _protocol_timeout_error (name : string) : M unit :=
  terminate (Some ("Protocol timeout error: " ++ name)).

(** [_prune] *)
Definition _prune : M unit :=
  set_self (Upd.state (Some LSSTATE_TEARDOWN)) ;;
  suppress only_ValueError (
    c ← gets cls;
    i ← gets self_id;
    match Py.list_remove i (sessions c) with
    | Some l => modify (Upd.cls (Upd.sessions l))
    | None => raise ValueError
    end) ;;
  suppress any_Exception Outlet_teardown.

(** Calling a fail condition [lambda: self.state == v]. *)
Definition call_fail_condition (v : option LSState) : M bool :=
  st ← gets (fun w => state (self w));
  mret (state_eqb st v).

(** [_check_protocol_timeout] *)
Definition _check_protocol_timeout (fail_condition : option LSState) (name : string) : M unit :=
  timeout ← try_except
    (st ← gets (fun w => state (self w));
     if negb (state_eqb st (Some LSSTATE_TEARDOWN))
     then call_fail_condition fail_condition
     else mret false)
    any_Exception (fun _ => mret true);
  if timeout : bool then _protocol_timeout_error name else pass.

(** [_link_closed]; the outlet argument is given by its id. *)
Definition _link_closed (o : nat) : M unit :=
  mine ← gets (fun w => outlet_id (outlet w));
  (if Nat.eqb o mine
   then modify (Upd.outlet (Upd.link_closed_callback false))
   else pass) ;;
  if negb (Nat.eqb o mine) then pass
  else
    Messenger_clear_retries ;;
    terminate None.

(** [_initiator_identified] *)
Definition _initiator_identified (o : nat) (identity : Identity) : M unit :=
  mine ← gets (fun w => outlet_id (outlet w));
  if negb (Nat.eqb o mine) then pass
  else
    st ← gets (fun w => state (self w));
    (if negb (state_eqb st (Some LSSTATE_WAIT_IDENT))
     then _protocol_error (LSState_name LSSTATE_WAIT_IDENT)
     else pass) ;;
    c ← gets cls;
    (if negb (allow_all c) && negb (hash_in (hash identity) (allowed_identity_hashes c))
     then terminate (Some "Identity is not allowed.")
     else pass) ;;
    set_self (Upd.remote_identity (Some identity)) ;;
    modify (Upd.outlet (Upd.packet_received_callback true)) ;;
    _set_state LSSTATE_WAIT_VERS (Some 10%Q).

(** The body of the [try] block of [pump]; falling off the end of the
    [if] chain is the final [return False]. *)
Definition pump_body : M bool :=
  st ← gets (fun w => state (self w));
  if negb (state_eqb st (Some LSSTATE_RUNNING)) then mret false
  else
    ready ← Messenger_is_outlet_ready;
    if negb ready then mret false
    else
      s ← gets self;
      if (0 <? Z.of_nat (length (stderr_buf s))) then
        m ← gets (fun w => mdu (outlet w));
        let mdu := m - 16 in
        let data := Py.slice_to (stderr_buf s) mdu in
        set_self (Upd.stderr_buf (Py.slice_from (stderr_buf s) mdu)) ;;
        p_eof ← attr (process s) stderr_eof;
        let send_eof :=
          p_eof && (Z.of_nat (length data) =? 0) && negb (stderr_eof_sent s) in
        set_self (Upd.stderr_eof_sent (stderr_eof_sent s || send_eof)) ;;
        send (StreamDataMessage STREAM_ID_STDERR data send_eof) ;;
        (if send_eof then set_self (Upd.stderr_eof_sent true) else pass) ;;
        mret true
      else if (0 <? Z.of_nat (length (stdout_buf s))) then
        m ← gets (fun w => mdu (outlet w));
        let mdu := m - 16 in
        let data := Py.slice_to (stdout_buf s) mdu in
        set_self (Upd.stdout_buf (Py.slice_from (stdout_buf s) mdu)) ;;
        p_eof ← attr (process s) stdout_eof;
        let send_eof :=
          p_eof && (Z.of_nat (length data) =? 0) && negb (stdout_eof_sent s) in
        set_self (Upd.stdout_eof_sent (stdout_eof_sent s || send_eof)) ;;
        send (StreamDataMessage STREAM_ID_STDOUT data send_eof) ;;
        (if send_eof then set_self (Upd.stdout_eof_sent true) else pass) ;;
        mret true
      else
        match return_code s with
        | Some rc =>
            if negb (return_code_sent s) then
              send (CommandExitedMessage rc) ;;
              set_self (Upd.return_code_sent true) ;;
              r ← gets (fun w => rtt (outlet w));
              _call (check_protocol_timeout_task (Some LSSTATE_RUNNING) "CommandExitedMessage")
                    (Py.max (r * 5) 10) ;;
              mret false
            else mret false
        | None => mret false
        end.

(** [pump] *)
Definition pump : M bool :=
  try_except pump_body any_Exception (fun _ => mret false).

(** [_set_window_size] *)
Definition _set_window_size (rows cols hpix vpix : Z) : M unit :=
  set_self (Upd.geometry rows cols hpix vpix) ;;
  suppress any_Exception
    (process_call (Upd.winsize (Some (rows, cols, hpix, vpix)))).

(** [_received_stdin] *)
Definition _received_stdin (data : list Byte.byte) (eof : bool) : M unit :=
  (if (0 <? Z.of_nat (length data))
   then process_call (fun h => Upd.written (written h ++ [data]) h)
   else pass) ;;
  if eof then process_call (fun h => Upd.stdin_closed (S (stdin_closed h)) h)
  else pass.

(** The [stdout] and [stderr] closures that [_start_cmd] hands to the
    process as its output callbacks. *)
Definition stdout_callback (data : list Byte.byte) : M unit :=
  set_self (fun s => Upd.stdout_buf (stdout_buf s ++ data) s).

Definition stderr_callback (data : list Byte.byte) : M unit :=
  set_self (fun s => Upd.stderr_buf (stderr_buf s ++ data) s).

(** ** The event loop *)

(** Running a scheduled closure. *)
Definition run_task (t : Task) : M unit :=
  match t with
  | check_protocol_timeout_task c name => _check_protocol_timeout c name
  | prune_task => _prune
  end.

(** [call_inner] of [_call] *)
Definition call_inner (func : Task) (delay : Q) : M unit :=
  if Qeq_bool delay 0 then run_task func
  else modify (Upd.loop (fun l => {| soon := soon l; later := later l ++ [(delay, func)] |})).

(** The loop runs the oldest queued [call_inner]. *)
Definition loop_run_soon : M unit :=
  l ← gets loop;
  match soon l with
  | [] => pass
  | (func, delay) :: rest =>
      modify (Upd.loop (fun l => {| soon := rest; later := later l |})) ;;
      call_inner func delay
  end.

(** The loop runs every queued [call_inner], oldest first ([n] bounds
    the number run). *)
Fixpoint loop_run_all_soon (n : nat) : M unit :=
  match n with
  | O => pass
  | S n' => loop_run_soon ;; loop_run_all_soon n'
  end.

(** The timer at index [i] elapses: it leaves the timer list and its
    closure runs. *)
Definition loop_fire (i : nat) : M unit :=
  l ← gets loop;
  match later l !! i with
  | Some (_, func) =>
      modify (Upd.loop (fun l => {| soon := soon l; later := take i (later l) ++ drop (S i) (later l) |})) ;;
      run_task func
  | None => pass
  end.

(** ** Command resolution and message handling *)

Section Protocol.

(** Constants and functions of rnsh.protocol, rnsh and RNS that the
    session uses. *)
Variable PROTOCOL_VERSION : Z.
Variable SW_VERSION : string.
Variable prettyhexrep : list Byte.byte -> string.
Variable Messenger_receive : list Byte.byte -> Result Message.
Variable Exception_str : Exception -> string.

(** Reading [self.cmdline]. *)
Definition self_cmdline : M (option loc) := gets (fun w => cmdline (self w)).

(** [target.extend(source)] on the object store. *)
Definition list_extend (target source : loc) : M unit :=
  h ← gets objs;
  match h !! target, h !! source with
  | Some xs, Some ys => modify (Upd.objs (fun h => <[target := (xs ++ ys)%list]> h))
  | _, _ => raise AttributeError
  end.

(** [CallbackSubprocess(...)] followed by [start()].  The environment
    is built first; [prettyhexrep(...) or <empty string>] is the string
    itself. *)
Definition spawn_process : M unit :=
  s ← gets self;
  h ← gets objs;
  ambient ← gets environ_TERM;
  ident ← attr (remote_identity s) hash;
  let env_term := if Py.truthy_str (term s) then term s else ambient in
  args ← attr (cmdline s ≫= (h !!.)) id;
  set_self (Upd.process (Some {|
    argv := args;
    env_TERM := env_term;
    env_RNS_REMOTE_IDENTITY := prettyhexrep ident;
    proc_stdin_is_pipe := stdin_is_pipe s;
    proc_stdout_is_pipe := stdout_is_pipe s;
    proc_stderr_is_pipe := stderr_is_pipe s;
    running := false;
    stdout_eof := false;
    stderr_eof := false;
    winsize := None;
    written := [];
    stdin_closed := O;
    terminate_calls := O |})) ;;
  fails ← gets spawn_raises;
  if fails : bool then raise OSError
  else process_call (Upd.running true).

(** [_start_cmd] *)
Definition _start_cmd (cmdline : option loc)
    (pipe_stdin pipe_stdout pipe_stderr : bool) (tcflags : option (list Z))
    (term : option string) (rows cols hpix vpix : Z) : M unit :=
  c ← gets cls;
  set_self (Upd.cmdline (Some (default_command c))) ;;
  h ← gets objs;
  let given := Py.truthy_list (cmdline ≫= (h !!.)) in
  if negb (allow_remote_command c) && given then
    terminate (Some "Remote command line not allowed by listener")
  else
    (if remote_cmd_as_args c && given then
       own ← self_cmdline;
       match own, cmdline with
       | Some target, Some source => list_extend target source
       | _, _ => raise AttributeError
       end
     else if given then set_self (Upd.cmdline cmdline)
     else pass) ;;
    set_self (Upd.pipes pipe_stdin pipe_stdout pipe_stderr) ;;
    set_self (Upd.tcflags tcflags) ;;
    set_self (Upd.term term) ;;
    try_except
      (spawn_process ;;
       _set_window_size rows cols hpix vpix)
      any_Exception
      (fun _ => terminate (Some "Unable to start process")).

(** [self.state.name] *)
Definition state_name : M string :=
  st ← gets (fun w => state (self w));
  attr st LSState_name.

(** [_handle_message] *)
Definition _handle_message (message : Message) : M unit :=
  st ← gets (fun w => state (self w));
  if state_eqb st (Some LSSTATE_WAIT_VERS) then
    match message with
    | VersionInfoMessage _ protocol_version =>
        if negb (protocol_version =? PROTOCOL_VERSION) then
          terminate (Some "Incompatible protocol")
        else
          send (VersionInfoMessage SW_VERSION PROTOCOL_VERSION) ;;
          _set_state LSSTATE_WAIT_CMD (Some 10%Q)
    | _ => name ← state_name; _protocol_error name
    end
  else if state_eqb st (Some LSSTATE_WAIT_CMD) then
    match message with
    | ExecuteCommandMesssage cmdline pipe_stdin pipe_stdout pipe_stderr
                             tcflags term rows cols hpix vpix =>
        _set_state LSSTATE_RUNNING (Some 10%Q) ;;
        _start_cmd cmdline pipe_stdin pipe_stdout pipe_stderr
                   tcflags term rows cols hpix vpix
    | _ => name ← state_name; _protocol_error name
    end
  else if state_eqb st (Some LSSTATE_RUNNING) then
    match message with
    | WindowSizeMessage rows cols hpix vpix =>
        _set_window_size rows cols hpix vpix
    | StreamDataMessage stream_id data eof =>
        if negb (StreamId_eqb stream_id STREAM_ID_STDIN) then
          name ← state_name; _protocol_error name
        else _received_stdin data eof
    | NoopMessage => send message
    | _ => pass
    end
  else if state_eqb st (Some LSSTATE_ERROR) || state_eqb st (Some LSSTATE_TEARDOWN) then
    pass
  else
    _protocol_error "unexpected message".

(** [_packet_received] *)
Definition _packet_received (o : nat) (raw : list Byte.byte) : M unit :=
  mine ← gets (fun w => outlet_id (outlet w));
  if negb (Nat.eqb o mine) then pass
  else
    try_except
      (match Messenger_receive raw with
       | Return message => _handle_message message
       | Raise e => raise e
       end)
      any_Exception
      (fun ex => _protocol_error ("error receiving packet: " ++ Exception_str ex)).

End Protocol.

(** [__init__]: the session takes over its outlet, starts in
    [LSSTATE_WAIT_IDENT] and joins the registry. *)
Definition __init__ : M unit :=
  modify (Upd.outlet (Upd.initiator_identified_callback true)) ;;
  modify (Upd.outlet (Upd.link_closed_callback true)) ;;
  set_self (fun _ => {|
    state := None; remote_identity := None; term := None;
    stdin_is_pipe := false; stdout_is_pipe := false; stderr_is_pipe := false;
    tcflags := None; cmdline := None;
    rows := 0; cols := 0; hpix := 0; vpix := 0;
    stdout_buf := []; stdout_eof_sent := false;
    stderr_buf := []; stderr_eof_sent := false;
    return_code := None; return_code_sent := false;
    process := None |}) ;;
  _set_state LSSTATE_WAIT_IDENT (Some 10%Q) ;;
  i ← gets self_id;
  modify (Upd.cls (fun c => Upd.sessions (sessions c ++ [i]) c)).

(** ** Observations *)

(** The messages a computation hands to the Messenger. *)
Definition sent_by {A} (m : M A) (w : World) : list Message :=
  drop (length (sent (messenger w))) (sent (messenger (exec m w))).

Definition is_stream_chunk (sid : StreamId) (m : Message) : bool :=
  match m with
  | StreamDataMessage i _ _ => StreamId_eqb i sid
  | _ => false
  end.

Definition is_command_exited (m : Message) : bool :=
  match m with
  | CommandExitedMessage _ => true
  | _ => false
  end.

Definition is_error_message (m : Message) : bool :=
  match m with
  | ErrorMessage _ _ => true
  | _ => false
  end.

(** A stream-data message of one of the two output streams. *)
Definition is_output_chunk (m : Message) : bool :=
  is_stream_chunk STREAM_ID_STDERR m || is_stream_chunk STREAM_ID_STDOUT m.

(** The message classes that [_handle_message] acts on in
    [LSSTATE_RUNNING]. *)
Definition handled_in_running (m : Message) : bool :=
  match m with
  | WindowSizeMessage _ _ _ _ => true
  | StreamDataMessage _ _ _ => true
  | NoopMessage => true
  | _ => false
  end.

(** The end-of-stream flag of a stream-data message of stream [sid]. *)
Definition carries_eof (sid : StreamId) (m : Message) : bool :=
  match m with
  | StreamDataMessage i _ eof => StreamId_eqb i sid && eof
  | _ => false
  end.

(** The bytes of stream [sid] that a message carries. *)
Definition payload (sid : StreamId) (m : Message) : list Byte.byte :=
  match m with
  | StreamDataMessage i data _ => if StreamId_eqb i sid then data else []
  | _ => []
  end.

(** The bytes of stream [sid] carried by a sequence of messages, in the
    order sent. *)
Definition payloads (sid : StreamId) (l : list Message) : list Byte.byte :=
  concat (map (payload sid) l).

(** [n] scheduler ticks: [pump] called [n] times in a row. *)
Fixpoint pump_times (n : nat) : M unit :=
  match n with
  | O => pass
  | S n' => pump ;; pump_times n'
  end.

(** The session's buffer for an output stream; it holds none for stdin. *)
Definition buf_of (sid : StreamId) (s : ListenerSession) : list Byte.byte :=
  match sid with
  | STREAM_ID_STDERR => stderr_buf s
  | STREAM_ID_STDOUT => stdout_buf s
  | STREAM_ID_STDIN => []
  end.

(** Handling a sequence of messages, in the order received. *)
Fixpoint handle_all (handle : Message -> M unit) (l : list Message) : M unit :=
  match l with
  | [] => pass
  | m :: l' => handle m ;; handle_all handle l'
  end.

(** A stream-data message for the process's stdin. *)
Definition stdin_message (data : list Byte.byte) (eof : bool) : Message :=
  StreamDataMessage STREAM_ID_STDIN data eof.

(** What happens to a running session between two messages: the
    scheduler ticks, or the process produces output. *)
Inductive Activity :=
| Tick
| Stdout (data : list Byte.byte)
| Stderr (data : list Byte.byte).

Definition act (a : Activity) : M unit :=
  match a with
  | Tick => pump ;; pass
  | Stdout data => stdout_callback data
  | Stderr data => stderr_callback data
  end.

Fixpoint act_all (l : list Activity) : M unit :=
  match l with
  | [] => pass
  | a :: l' => act a ;; act_all l'
  end.

(** The bytes the process produced on stream [sid] during a sequence of
    activities. *)
Definition produced (sid : StreamId) (l : list Activity) : list Byte.byte :=
  concat (map (fun a => match a, sid with
                        | Stdout data, STREAM_ID_STDOUT => data
                        | Stderr data, STREAM_ID_STDERR => data
                        | _, _ => []
                        end) l).

(** ** Sample states *)

Module Sample.

Definition hello : list Byte.byte := ["h"; "e"; "l"; "l"; "o"]%byte.

Definition proc : CallbackSubprocess := {|
  argv := ["/bin/sh"]; env_TERM := None; env_RNS_REMOTE_IDENTITY := "<00>";
  proc_stdin_is_pipe := false; proc_stdout_is_pipe := false;
  proc_stderr_is_pipe := false;
  running := true; stdout_eof := false; stderr_eof := false;
  winsize := None; written := []; stdin_closed := O; terminate_calls := O |}.

(** The process has closed both of its output streams. *)
Definition proc_eof : CallbackSubprocess := {|
  argv := ["/bin/sh"]; env_TERM := None; env_RNS_REMOTE_IDENTITY := "<00>";
  proc_stdin_is_pipe := false; proc_stdout_is_pipe := false;
  proc_stderr_is_pipe := false;
  running := false; stdout_eof := true; stderr_eof := true;
  winsize := None; written := []; stdin_closed := O; terminate_calls := O |}.

Definition session (st : option LSState) : ListenerSession := {|
  state := st; remote_identity := None; term := None;
  stdin_is_pipe := false; stdout_is_pipe := false; stderr_is_pipe := false;
  tcflags := None; cmdline := None;
  rows := 0; cols := 0; hpix := 0; vpix := 0;
  stdout_buf := []; stdout_eof_sent := false;
  stderr_buf := []; stderr_eof_sent := false;
  return_code := None; return_code_sent := false;
  process := None |}.

Definition peer : Identity := {| hash := [Byte.x01; Byte.x02] |}.

(** A listener with an empty allow-list whose default command is
    stored at address 1. *)
Definition listener (allow_remote as_args : bool) : ClassAttrs := {|
  sessions := [7%nat]; allowed_identity_hashes := [];
  allow_all := false; allow_remote_command := allow_remote;
  default_command := 1%positive; remote_cmd_as_args := as_args |}.

(** The default command is [["/bin/sh"]]; address 2 holds the command
    line [["-c"; "id"]] of a message, address 3 an empty one. *)
Definition world_of (c : ClassAttrs) (st : option LSState) : World := {|
  self := session st;
  self_id := 7%nat;
  cls := c;
  objs := {[ 1%positive := ["/bin/sh"]; 2%positive := ["-c"; "id"];
             3%positive := [] ]};
  messenger := {| outlet_ready := true; send_raises := false; sent := [];
                  retries_cleared := O |};
  outlet := {| outlet_id := 1%nat; mdu := 256; rtt := 1 # 2;
               initiator_identified_callback := true;
               link_closed_callback := true;
               packet_received_callback := false;
               teardown_raises := false; teardowns := O |};
  loop := {| soon := []; later := [] |};
  spawn_raises := false;
  environ_TERM := Some "xterm"
|}.

Definition world (st : option LSState) : World :=
  world_of (listener false false) st.

(** The state in which session 7 is about to be constructed: the
    registry holds another session only. *)
Definition before_construction : World :=
  world_of {| sessions := [3%nat]; allowed_identity_hashes := [];
              allow_all := false; allow_remote_command := false;
              default_command := 1%positive; remote_cmd_as_args := false |}
           None.

(** The session of a peer whose identity has been recorded. *)
Definition identified (w : World) : World :=
  Upd.self (Upd.remote_identity (Some peer)) w.

(** An execute-command message whose command line is at [cl]. *)
Definition execute (cl : loc) : Message :=
  ExecuteCommandMesssage (Some cl) false false false None None 24 80 0 0.

(** Another session of the same listener, waiting for its command. *)
Definition next_session (w : World) : World :=
  identified (Upd.self (fun _ => session (Some LSSTATE_WAIT_CMD)) w).

(** The protocol at version 1, with a display encoding of identity
    hashes that shows their length. *)
Definition hexrep (h : list Byte.byte) : string :=
  fold_right String.append "<>" (repeat "xx" (length h)).

Definition handle : Message -> M unit := _handle_message 1 "0.1.0" hexrep.

(** A decoder that rejects the empty packet and reads anything else as
    a no-op message, and a rendering of exceptions. *)
Definition decode (raw : list Byte.byte) : Result Message :=
  match raw with
  | [] => Raise DecodeError
  | _ => Return NoopMessage
  end.

Definition explain (e : Exception) : string :=
  match e with
  | DecodeError => "bad packet"
  | _ => "error"
  end.

Definition received : nat -> list Byte.byte -> M unit :=
  _packet_received 1 "0.1.0" hexrep decode explain.

(** The Messenger refuses the next send. *)
Definition send_fails (w : World) : World :=
  Upd.messenger (fun m => {| outlet_ready := outlet_ready m; send_raises := true;
                             sent := sent m; retries_cleared := retries_cleared m |}) w.

(** A running session whose process has a pending output. *)
Definition running_with (p : CallbackSubprocess) (out err : list Byte.byte)
    (rc : option Z) : World :=
  Upd.self (fun s =>
    Upd.return_code rc
      (Upd.stderr_buf err (Upd.stdout_buf out (Upd.process (Some p) s))))
    (world (Some LSSTATE_RUNNING)).

End Sample.

(** * Properties *)

(** ** Symbolic execution *)

(** Unfold the monad and the primitive operations. *)
Ltac run :=
  cbv [try_except suppress mbind M_bind mret M_ret gets modify raise pass
       set_self attr process_call send Messenger_send Messenger_is_outlet_ready
       Messenger_clear_retries _call exec eval sent_by any_Exception] in *;
  cbn in *.

(** Replace a program state by its components. *)
Ltac open_world w :=
  let s := fresh "s" in
  let c := fresh "c" in
  let ms := fresh "ms" in
  let o := fresh "o" in
  let l := fresh "l" in
  destruct w as [s ? c ? ms o l ? ?];
  destruct s, c, ms, o, l; cbn in *.

(** Split on the outermost undecided test of the goal. *)
Ltac branch :=
  match goal with
  | |- context [if ?b then _ else _] =>
      lazymatch b with
      | context [if _ then _ else _] => fail
      | _ => destruct b eqn:?
      end
  | |- context [match ?x with Some _ => _ | None => _ end] =>
      lazymatch x with
      | context [match _ with _ => _ end] => fail
      | _ => destruct x eqn:?
      end
  end; cbn in *.

Ltac sent_done :=
  rewrite ?drop_all, ?drop_app_length, ?app_nil_r; try reflexivity.

(** ** Attribute updates *)

(** Each updater of the session writes the attribute it is named after. *)
Lemma Upd_session_read (s : ListenerSession) :
  (forall v, state (Upd.state v s) = v) /\
  (forall v, remote_identity (Upd.remote_identity v s) = v) /\
  (forall v, term (Upd.term v s) = v) /\
  (forall i o e, (stdin_is_pipe (Upd.pipes i o e s), stdout_is_pipe (Upd.pipes i o e s),
                  stderr_is_pipe (Upd.pipes i o e s)) = (i, o, e)) /\
  (forall v, tcflags (Upd.tcflags v s) = v) /\
  (forall v, cmdline (Upd.cmdline v s) = v) /\
  (forall r c h v, (rows (Upd.geometry r c h v s), cols (Upd.geometry r c h v s),
                    hpix (Upd.geometry r c h v s), vpix (Upd.geometry r c h v s))
                   = (r, c, h, v)) /\
  (forall v, stdout_buf (Upd.stdout_buf v s) = v) /\
  (forall v, stdout_eof_sent (Upd.stdout_eof_sent v s) = v) /\
  (forall v, stderr_buf (Upd.stderr_buf v s) = v) /\
  (forall v, stderr_eof_sent (Upd.stderr_eof_sent v s) = v) /\
  (forall v, return_code (Upd.return_code v s) = v) /\
  (forall v, return_code_sent (Upd.return_code_sent v s) = v) /\
  (forall v, process (Upd.process v s) = v).
Proof. repeat split. Qed.

(** Writing an attribute its own value changes nothing. *)
Lemma Upd_session_same (s : ListenerSession) :
  Upd.state (state s) s = s /\
  Upd.remote_identity (remote_identity s) s = s /\
  Upd.term (term s) s = s /\
  Upd.pipes (stdin_is_pipe s) (stdout_is_pipe s) (stderr_is_pipe s) s = s /\
  Upd.tcflags (tcflags s) s = s /\
  Upd.cmdline (cmdline s) s = s /\
  Upd.geometry (rows s) (cols s) (hpix s) (vpix s) s = s /\
  Upd.stdout_buf (stdout_buf s) s = s /\
  Upd.stdout_eof_sent (stdout_eof_sent s) s = s /\
  Upd.stderr_buf (stderr_buf s) s = s /\
  Upd.stderr_eof_sent (stderr_eof_sent s) s = s /\
  Upd.return_code (return_code s) s = s /\
  Upd.return_code_sent (return_code_sent s) s = s /\
  Upd.process (process s) s = s.
Proof. repeat split. Qed.

(** ** Equality tests *)

Lemma LSState_eqb_eq (a b : LSState) : LSState_eqb a b = true <-> a = b.
Proof. destruct a, b; simpl; split; congruence. Qed.

Lemma state_eqb_eq (a b : option LSState) : state_eqb a b = true <-> a = b.
Proof.
  destruct a as [x|], b as [y|]; simpl; try (split; congruence).
  rewrite LSState_eqb_eq. split; congruence.
Qed.

Lemma state_eqb_neq (a b : option LSState) : state_eqb a b = false <-> a <> b.
Proof.
  rewrite <- state_eqb_eq. destruct (state_eqb a b); split; congruence.
Qed.

(** ** Slices *)

Lemma slice_index_le (k : Z) (n : nat) : (Py.slice_index k n <= n)%nat.
Proof. unfold Py.slice_index. destruct (k <? 0) eqn:E; lia. Qed.

Lemma slice_index_pos (k : Z) (n : nat) :
  0 < k -> (0 < n)%nat -> (0 < Py.slice_index k n)%nat.
Proof.
  intros Hk Hn. unfold Py.slice_index.
  destruct (k <? 0) eqn:E; [apply Z.ltb_lt in E; lia | lia].
Qed.

(** A slice and its remainder partition the sequence. *)
Lemma slice_to_from {A} (l : list A) (k : Z) :
  (Py.slice_to l k ++ Py.slice_from l k)%list = l.
Proof. unfold Py.slice_to, Py.slice_from. apply take_drop. Qed.

Lemma slice_to_length {A} (l : list A) (k : Z) :
  length (Py.slice_to l k) = Py.slice_index k (length l).
Proof.
  unfold Py.slice_to. rewrite length_take.
  pose proof (slice_index_le k (length l)). lia.
Qed.

(** With a positive bound, a slice of a non-empty sequence is non-empty. *)
Lemma slice_to_nonempty {A} (l : list A) (k : Z) :
  0 < k -> (0 <? Z.of_nat (length l)) = true ->
  (Z.of_nat (length (Py.slice_to l k)) =? 0) = false.
Proof.
  intros Hk Hl. apply Z.ltb_lt in Hl. apply Z.eqb_neq.
  rewrite slice_to_length.
  pose proof (slice_index_pos k (length l) Hk). lia.
Qed.

(** ** Exceptions *)

(** A [try] whose [except Exception] handler returns cannot raise, and
    what the body raises decides which of the two results is returned. *)
Lemma try_except_any {A} (body : M A) (v : A) (w : World) :
  (forall e, eval (try_except body any_Exception (fun _ => mret v)) w <> Raise e) /\
  (forall a, eval body w = Return a ->
     eval (try_except body any_Exception (fun _ => mret v)) w = Return a) /\
  (forall e, eval body w = Raise e ->
     eval (try_except body any_Exception (fun _ => mret v)) w = Return v).
Proof.
  unfold eval, try_except, any_Exception.
  destruct (body w) as [w' [a|e]]; simpl; repeat split; congruence.
Qed.

Lemma suppress_any_returns (body : M unit) (w : World) :
  eval (suppress any_Exception body) w = Return tt.
Proof.
  unfold suppress, pass.
  destruct (try_except_any body tt w) as (_ & Hret & Hraise).
  destruct (eval body w) as [[]|e]; [apply Hret | apply (Hraise e)]; reflexivity.
Qed.

(** [terminate] never raises. *)
Lemma terminate_returns (error : option string) (w : World) :
  eval (terminate error) w = Return tt.
Proof. apply suppress_any_returns. Qed.

(** ** The stream multiplexer *)

Ltac pump_cases w :=
  open_world w; unfold pump, pump_body in *; run; repeat branch.

(** What [pump] hands to the Messenger is appended to the send log. *)
Lemma pump_sent_prefix (w : World) :
  sent (messenger (exec pump w)) = (sent (messenger w) ++ sent_by pump w)%list.
Proof. pump_cases w; sent_done. Qed.

(** With a positive chunk size no message sent by [pump] carries the
    end-of-stream flag: a chunk cut from a non-empty buffer is not empty. *)
Lemma pump_chunks_never_carry_eof (w : World) :
  16 < mdu (outlet w) ->
  existsb (fun m => carries_eof STREAM_ID_STDERR m || carries_eof STREAM_ID_STDOUT m)
          (sent_by pump w) = false.
Proof.
  intros Hmdu.
  assert (Hk : 0 < mdu (outlet w) - 16) by lia.
  clear Hmdu. pump_cases w; sent_done;
    match goal with
    | Hpos : 0 < ?k, H : (0 <? Z.of_nat (length ?b)) = true,
      E : _ && _ && _ = true |- _ =>
        rewrite (slice_to_nonempty b k Hpos H), andb_false_r in E;
        discriminate E
    end.
Qed.

(** Once the flag of a stream is latched, [pump] does not send
    end-of-stream for it again. *)
Lemma pump_eof_latched (w : World) :
  (stderr_eof_sent (self w) = true ->
     existsb (carries_eof STREAM_ID_STDERR) (sent_by pump w) = false) /\
  (stdout_eof_sent (self w) = true ->
     existsb (carries_eof STREAM_ID_STDOUT) (sent_by pump w) = false).
Proof.
  split; intros Hsent; open_world w; subst; unfold pump, pump_body; run;
    repeat branch; sent_done;
    match goal with
    | E : _ && false = true |- _ => rewrite andb_false_r in E; discriminate E
    end.
Qed.

(** C2 (code defect).  A running session holds the last five bytes of its
    process's stdout, the process has reported end-of-stream and the
    outlet carries 256 bytes.  [pump] sends those bytes as a chunk whose
    end-of-stream flag is unset and empties the buffer; the flag stays
    unlatched and the next call sends nothing, so the stream's
    end-of-stream is never announced. *)
Theorem final_chunk_without_eof :
  let w := Sample.running_with Sample.proc_eof Sample.hello [] None in
  let w1 := exec pump w in
  sent_by pump w = [StreamDataMessage STREAM_ID_STDOUT Sample.hello false] /\
  stdout_buf (self w1) = [] /\
  stdout_eof_sent (self w1) = false /\
  sent_by pump w1 = [] /\
  eval pump w1 = Return false.
Proof. vm_compute. repeat split. Qed.

(** C7.  A call of [pump] appends at most one message to the send log;
    it sends nothing when the session is not running or the Messenger
    reports the outlet not ready; and when the stderr buffer is not empty
    at the start of the call, the call sends no stdout chunk. *)
Theorem pump_sends_at_most_one (w : World) :
  sent (messenger (exec pump w)) = (sent (messenger w) ++ sent_by pump w)%list /\
  (length (sent_by pump w) <= 1)%nat /\
  (state (self w) <> Some LSSTATE_RUNNING \/ outlet_ready (messenger w) = false ->
     sent_by pump w = []) /\
  (stderr_buf (self w) <> [] ->
     existsb (is_stream_chunk STREAM_ID_STDOUT) (sent_by pump w) = false).
Proof.
  split; [apply pump_sent_prefix |].
  split; [| split].
  - pump_cases w; sent_done; simpl; lia.
  - intros [Hst | Hready].
    + apply state_eqb_neq in Hst.
      pump_cases w; sent_done;
        match goal with
        | E : negb _ = false |- _ => rewrite Hst in E; discriminate E
        end.
    + pump_cases w; sent_done; subst; discriminate.
  - intros Herr.
    assert (Hlen : (0 <? Z.of_nat (length (stderr_buf (self w)))) = true).
    { apply Z.ltb_lt. destruct (stderr_buf (self w)); [congruence | simpl; lia]. }
    clear Herr. pump_cases w; sent_done; congruence.
Qed.

(** C8, as the code has it.  [pump] returns true exactly when the call
    sent a stderr or stdout chunk; it returns false when it sent nothing
    and also when it sent the command-exited message. *)
Theorem pump_return_value (w : World) :
  eval pump w =
  Return (existsb (fun m => is_stream_chunk STREAM_ID_STDERR m
                            || is_stream_chunk STREAM_ID_STDOUT m)
                  (sent_by pump w)).
Proof. pump_cases w; sent_done. Qed.

(** C10.  [pump] returns to its caller whatever happens in its body: it
    never raises, and when the body raises the call returns false. *)
Theorem pump_never_raises (w : World) :
  (forall e, eval pump w <> Raise e) /\
  (forall e, eval pump_body w = Raise e -> eval pump w = Return false).
Proof.
  destruct (try_except_any pump_body false w) as (Hno & _ & Hcaught).
  split; [exact Hno | exact Hcaught].
Qed.

(** ** Timeout watchdogs *)

Lemma Py_max_ge_l (a b : Q) : (a <= Py.max a b)%Q.
Proof.
  unfold Py.max. destruct (Qle_bool b a) eqn:E.
  - apply Qle_refl.
  - destruct (Qlt_le_dec a b) as [Hlt | Hle].
    + apply Qlt_le_weak, Hlt.
    + apply Qle_bool_iff in Hle. congruence.
Qed.

Lemma Py_max_ge_r (a b : Q) : (b <= Py.max a b)%Q.
Proof.
  unfold Py.max. destruct (Qle_bool b a) eqn:E.
  - apply Qle_bool_iff, E.
  - apply Qle_refl.
Qed.

(** [_set_state] enters the new state and queues one watchdog; the guard
    of that watchdog holds the state the session had before the call,
    its name is the name of the state entered, and its delay is at least
    10. *)
Lemma _set_state_arms (st : LSState) (f : Q) (w : World) :
  let w' := exec (_set_state st (Some f)) w in
  let timeout := Py.max (rtt (outlet w) * f) (Py.max (rtt (outlet w) * 2) 10) in
  state (self w') = Some st /\
  soon (loop w') =
    (soon (loop w) ++
     [(check_protocol_timeout_task (state (self w)) (LSState_name st), timeout)])%list /\
  (10 <= timeout)%Q.
Proof.
  cbn zeta. split; [| split].
  - open_world w. unfold _set_state. run. reflexivity.
  - open_world w. unfold _set_state. run. reflexivity.
  - eapply Qle_trans; [apply (Py_max_ge_r (rtt (outlet w) * 2) 10) |].
    apply Py_max_ge_r.
Qed.

(** A watchdog whose guard holds another state than the current one does
    nothing when it fires. *)
Lemma stale_guard_is_noop (guard : option LSState) (name : string) (w : World) :
  state (self w) <> guard ->
  _check_protocol_timeout guard name w = (w, Return tt).
Proof.
  intros Hne. apply state_eqb_neq in Hne.
  open_world w. unfold _check_protocol_timeout, call_fail_condition. run.
  destruct (state_eqb state0 (Some LSSTATE_TEARDOWN)); cbn;
    [reflexivity | rewrite Hne; reflexivity].
Qed.

(** A watchdog whose guard holds the current state, which is not
    [LSSTATE_TEARDOWN], raises the protocol-timeout error. *)
Lemma live_guard_times_out (name : string) (w : World) :
  state (self w) <> Some LSSTATE_TEARDOWN ->
  _check_protocol_timeout (state (self w)) name w = _protocol_timeout_error name w.
Proof.
  intros Hne. apply state_eqb_neq in Hne.
  assert (Hrefl : state_eqb (state (self w)) (state (self w)) = true)
    by (apply state_eqb_eq; reflexivity).
  open_world w. unfold _check_protocol_timeout, call_fail_condition. run.
  rewrite Hne. cbn. rewrite Hrefl. reflexivity.
Qed.

(** A transition to a different state arms a watchdog that does nothing
    while the session stays in the state entered. *)
Lemma armed_watchdog_is_stale (st : LSState) (w : World) :
  state (self w) <> Some st ->
  let w' := exec (_set_state st (Some 10%Q)) w in
  _check_protocol_timeout (state (self w)) (LSState_name st) w' = (w', Return tt).
Proof.
  intros Hne w'. apply stale_guard_is_noop.
  destruct (_set_state_arms st 10%Q w) as (Hst & _).
  fold w' in Hst. rewrite Hst. congruence.
Qed.

(** C1 (code defect).  A session in [LSSTATE_WAIT_IDENT] enters
    [LSSTATE_WAIT_VERS]; the loop turns the queued call into a timer of
    delay 10 whose guard holds [LSSTATE_WAIT_IDENT], the state before the
    transition.  When the timer elapses with the session still in
    [LSSTATE_WAIT_VERS], no error is sent, the state is unchanged and no
    prune is scheduled. *)
Theorem wait_vers_watchdog_does_not_fire :
  let w0 := Sample.world (Some LSSTATE_WAIT_IDENT) in
  let w1 := exec (_set_state LSSTATE_WAIT_VERS (Some 10%Q)) w0 in
  let w2 := exec loop_run_soon w1 in
  let w3 := exec (loop_fire 0) w2 in
  later (loop w2) =
    [(10%Q, check_protocol_timeout_task (Some LSSTATE_WAIT_IDENT) "LSSTATE_WAIT_VERS")] /\
  state (self w2) = Some LSSTATE_WAIT_VERS /\
  state (self w3) = Some LSSTATE_WAIT_VERS /\
  sent (messenger w3) = [] /\
  loop w3 = {| soon := []; later := [] |}.
Proof. vm_compute. repeat split. Qed.

(** The watchdog armed by the constructor guards [self.state == None]. *)
Example initial_watchdog_guard :
  soon (loop (exec __init__ (Sample.world None))) =
    [(check_protocol_timeout_task None "LSSTATE_WAIT_IDENT", 10%Q)].
Proof. vm_compute. reflexivity. Qed.

(** ** Termination *)

Ltac terminate_cases w :=
  open_world w; unfold terminate, _terminate_process in *; run; repeat branch.

Lemma list_remove_absent (x : nat) (l : list nat) :
  ~ In x l -> Py.list_remove x l = None.
Proof.
  induction l as [| y l IH]; simpl; intros Hnot; [reflexivity |].
  destruct (Nat.eqb y x) eqn:E.
  - apply Nat.eqb_eq in E. tauto.
  - rewrite IH; [reflexivity | tauto].
Qed.

(** [terminate] leaves the registry and the outlet alone, moves the
    session to [LSSTATE_ERROR] and queues one prune. *)
Lemma terminate_effects (error : option string) (w : World) :
  let w' := exec (terminate error) w in
  cls w' = cls w /\
  outlet w' = outlet w /\
  self_id w' = self_id w /\
  state (self w') = Some LSSTATE_ERROR /\
  soon (loop w') = (soon (loop w) ++ [(prune_task, Py.max (rtt (outlet w) * 3) 5)])%list.
Proof. cbn zeta. terminate_cases w; repeat split. Qed.

(** A prune of a session that is no longer registered leaves the
    registry as it is and calls the outlet's teardown. *)
Lemma prune_unregistered (w : World) :
  ~ In (self_id w) (sessions (cls w)) ->
  let w' := exec _prune w in
  state (self w') = Some LSSTATE_TEARDOWN /\
  sessions (cls w') = sessions (cls w) /\
  teardowns (outlet w') = S (teardowns (outlet w)).
Proof.
  intros Hnot. apply list_remove_absent in Hnot.
  open_world w. unfold _prune, Outlet_teardown. run.
  rewrite Hnot. cbn. destruct teardown_raises0; cbn; repeat split.
Qed.

(** No error message goes out when [terminate] is called without a
    reason or on a session in [LSSTATE_TEARDOWN]. *)
Lemma terminate_silent (error : option string) (w : World) :
  state (self w) = Some LSSTATE_TEARDOWN \/ Py.truthy_str error = false ->
  sent_by (terminate error) w = [].
Proof.
  intros [Hst | Herr].
  - open_world w. subst. unfold terminate, _terminate_process. run.
    rewrite andb_false_r. repeat branch; sent_done.
  - open_world w. unfold terminate, _terminate_process. run.
    rewrite Herr. cbn. repeat branch; sent_done.
Qed.

(** With a reason, outside [LSSTATE_TEARDOWN], the error message is sent
    (when the Messenger accepts it). *)
Lemma terminate_notifies (reason : string) (w : World) :
  reason <> EmptyString ->
  state (self w) <> Some LSSTATE_TEARDOWN ->
  send_raises (messenger w) = false ->
  sent_by (terminate (Some reason)) w = [ErrorMessage reason true].
Proof.
  intros Hreason Hst Hsend.
  apply String.eqb_neq in Hreason. apply state_eqb_neq in Hst.
  open_world w. subst. unfold terminate, _terminate_process. run.
  rewrite Hreason, Hst. cbn. repeat branch; sent_done.
Qed.

(** C6, as the code has it.  On a session already in [LSSTATE_ERROR] or
    [LSSTATE_TEARDOWN], [terminate] sends no further error message when
    the state is [LSSTATE_TEARDOWN] or no reason is given; in
    [LSSTATE_ERROR] with a reason the error message is sent again.  The
    call itself changes neither the registry nor the outlet.  It does
    put the session (back) into [LSSTATE_ERROR] and queues one more
    prune; run on a session that has left the registry, that prune leaves
    the registry as it is and calls the outlet's teardown once more. *)
Theorem terminate_again (error : option string) (w : World) :
  state (self w) = Some LSSTATE_ERROR \/ state (self w) = Some LSSTATE_TEARDOWN ->
  let w' := exec (terminate error) w in
  (state (self w) = Some LSSTATE_TEARDOWN \/ Py.truthy_str error = false ->
     sent_by (terminate error) w = []) /\
  (state (self w) = Some LSSTATE_ERROR -> Py.truthy_str error = true ->
   send_raises (messenger w) = false ->
     sent_by (terminate error) w = [ErrorMessage (default EmptyString error) true]) /\
  sessions (cls w') = sessions (cls w) /\
  teardowns (outlet w') = teardowns (outlet w) /\
  state (self w') = Some LSSTATE_ERROR /\
  soon (loop w') = (soon (loop w) ++ [(prune_task, Py.max (rtt (outlet w) * 3) 5)])%list /\
  (~ In (self_id w) (sessions (cls w)) ->
     sessions (cls (exec _prune w')) = sessions (cls w) /\
     teardowns (outlet (exec _prune w')) = S (teardowns (outlet w))).
Proof.
  intros _ w'.
  destruct (terminate_effects error w) as (Hcls & Hout & Hid & Hst & Hsoon).
  fold w' in Hcls, Hout, Hid, Hst, Hsoon.
  split; [apply terminate_silent |].
  split.
  { intros Herr Htruthy Hsend.
    destruct error as [reason |]; simpl in Htruthy; [| discriminate Htruthy].
    change (default EmptyString (Some reason)) with reason.
    apply terminate_notifies; [| congruence | exact Hsend].
    intros Heq. subst reason. discriminate Htruthy. }
  rewrite Hcls, Hout. repeat split; try assumption.
  - destruct (prune_unregistered w') as (_ & Hreg & _); [congruence |].
    rewrite Hreg, Hcls. reflexivity.
  - destruct (prune_unregistered w') as (_ & _ & Htear); [congruence |].
    rewrite Htear, Hout. reflexivity.
Qed.

(** ** The authentication gate *)

(** C4 (code defect).  For a session in [LSSTATE_WAIT_IDENT] and a peer
    that is not allowed, [_initiator_identified] calls [terminate] with
    the reason "Identity is not allowed." and then carries on: it records
    the identity, registers the packet-received callback and enters
    [LSSTATE_WAIT_VERS], with the prune and a new watchdog queued. *)
Theorem rejected_identity_continues (identity : Identity) (w : World) :
  state (self w) = Some LSSTATE_WAIT_IDENT ->
  allow_all (cls w) = false ->
  hash_in (hash identity) (allowed_identity_hashes (cls w)) = false ->
  let run := _initiator_identified (outlet_id (outlet w)) identity in
  (send_raises (messenger w) = false ->
     sent_by run w = [ErrorMessage "Identity is not allowed." true]) /\
  state (self (exec run w)) = Some LSSTATE_WAIT_VERS /\
  remote_identity (self (exec run w)) = Some identity /\
  packet_received_callback (outlet (exec run w)) = true /\
  soon (loop (exec run w)) =
    (soon (loop w) ++
     [(prune_task, Py.max (rtt (outlet w) * 3) 5);
      (check_protocol_timeout_task (Some LSSTATE_ERROR) "LSSTATE_WAIT_VERS",
       Py.max (rtt (outlet w) * 10) (Py.max (rtt (outlet w) * 2) 10))])%list.
Proof.
  intros Hst Hall Hhash. cbn zeta.
  destruct identity as [h]. open_world w. subst.
  unfold _initiator_identified, _set_state, terminate, _terminate_process. run.
  unfold hash_in in *. rewrite Nat.eqb_refl. cbn. rewrite Hhash. cbn.
  repeat branch; repeat split; intros; sent_done; try discriminate;
    rewrite <- app_assoc; reflexivity.
Qed.

(** ** Command resolution and message dispatch *)

Section ProtocolFacts.

Variable PROTOCOL_VERSION : Z.
Variable SW_VERSION : string.
Variable prettyhexrep : list Byte.byte -> string.

Let handle := _handle_message PROTOCOL_VERSION SW_VERSION prettyhexrep.

(** C3 (code defect).  With remote commands allowed and passed as
    arguments, handling an execute-command message appends the remote
    tokens to the shared default command itself: the list stored for
    [default_command] changes, and the next session of the listener
    starts its process with the tokens of both requests. *)
Theorem remote_arguments_extend_default :
  let w0 := Sample.identified
              (Sample.world_of (Sample.listener true true) (Some LSSTATE_WAIT_CMD)) in
  let w1 := exec (handle (Sample.execute 2%positive)) w0 in
  let w2 := exec (handle (Sample.execute 2%positive)) (Sample.next_session w1) in
  objs w0 !! default_command (cls w0) = Some ["/bin/sh"] /\
  objs w1 !! default_command (cls w1) = Some ["/bin/sh"; "-c"; "id"] /\
  argv <$> process (self w1) = Some ["/bin/sh"; "-c"; "id"] /\
  argv <$> process (self w2) = Some ["/bin/sh"; "-c"; "id"; "-c"; "id"].
Proof. vm_compute. repeat split. Qed.

(** C5 (code defect).  In [LSSTATE_RUNNING] a message that is neither a
    window-size, a stream-data nor a no-op message is dropped: nothing
    changes, no error is sent and the state stays
    [LSSTATE_RUNNING]. *)
Theorem unexpected_message_ignored_in_running (message : Message) (w : World) :
  state (self w) = Some LSSTATE_RUNNING ->
  handled_in_running message = false ->
  handle message w = (w, Return tt).
Proof.
  intros Hst Hmsg. subst handle. unfold _handle_message.
  open_world w. subst. run.
  destruct message; simpl in Hmsg; try discriminate Hmsg; reflexivity.
Qed.

(** C9.  A session in [LSSTATE_WAIT_CMD] whose listener does not allow
    remote commands receives an execute-command message whose command
    line is empty.  The message is not rejected: the session's command
    line is the default one, which is left as it was, and no "not
    allowed" error is sent.  With the peer identity on record and a
    process that can be started, the session is not terminated at all: it
    is in [LSSTATE_RUNNING] with only the watchdog of the transition
    queued, nothing was sent, and the process runs the default command
    line. *)
Theorem empty_remote_command_runs_default
    (cl : loc) (pipe_stdin pipe_stdout pipe_stderr : bool)
    (tcflags : option (list Z)) (term : option string)
    (rows cols hpix vpix : Z) (w : World) :
  state (self w) = Some LSSTATE_WAIT_CMD ->
  allow_remote_command (cls w) = false ->
  objs w !! cl = Some [] ->
  let run := handle (ExecuteCommandMesssage (Some cl) pipe_stdin pipe_stdout
                       pipe_stderr tcflags term rows cols hpix vpix) in
  cmdline (self (exec run w)) = Some (default_command (cls w)) /\
  objs (exec run w) = objs w /\
  cls (exec run w) = cls w /\
  ~ In (ErrorMessage "Remote command line not allowed by listener" true)
       (sent_by run w) /\
  (forall (dflt : list string) (ident : Identity),
     objs w !! default_command (cls w) = Some dflt ->
     remote_identity (self w) = Some ident ->
     spawn_raises w = false ->
     state (self (exec run w)) = Some LSSTATE_RUNNING /\
     sent_by run w = [] /\
     soon (loop (exec run w)) =
       (soon (loop w) ++
        [(check_protocol_timeout_task (Some LSSTATE_WAIT_CMD) "LSSTATE_RUNNING",
          Py.max (rtt (outlet w) * 10) (Py.max (rtt (outlet w) * 2) 10))])%list /\
     (exists p, process (self (exec run w)) = Some p /\
                argv p = dflt /\ running p = true)).
Proof.
  intros Hst Hallow Hcl. cbn zeta. subst handle.
  unfold _handle_message, _start_cmd, _set_state, spawn_process,
    _set_window_size, self_cmdline, terminate, _terminate_process.
  open_world w. subst. run.
  rewrite Hcl. cbn. rewrite andb_false_r. cbn.
  split; [| split; [| split; [| split]]].
  - repeat branch; reflexivity.
  - repeat branch; reflexivity.
  - repeat branch; reflexivity.
  - repeat branch; sent_done; simpl; intuition discriminate.
  - intros dflt ident Hdflt Hident Hspawn. subst.
    rewrite Hdflt. cbn.
    repeat split; sent_done.
    eexists. repeat split.
Qed.

End ProtocolFacts.

(** ** Instances *)

(** C4 at the sample listener, whose allow-list is empty. *)
Lemma rejected_identity_continues_witness :
  let w := Sample.world (Some LSSTATE_WAIT_IDENT) in
  let run := _initiator_identified 1 Sample.peer in
  hash_in (hash Sample.peer) (allowed_identity_hashes (cls w)) = false /\
  sent_by run w = [ErrorMessage "Identity is not allowed." true] /\
  state (self (exec run w)) = Some LSSTATE_WAIT_VERS /\
  remote_identity (self (exec run w)) = Some Sample.peer /\
  packet_received_callback (outlet (exec run w)) = true.
Proof.
  destruct (rejected_identity_continues Sample.peer
              (Sample.world (Some LSSTATE_WAIT_IDENT)))
    as (Hsent & Hst & Hid & Hcb & _); try reflexivity.
  split; [reflexivity |].
  split; [apply Hsent; reflexivity |].
  split; [exact Hst |].
  split; [exact Hid | exact Hcb].
Defined.

(** The rejected peer of the sample listener goes on to negotiate the
    protocol version. *)
Example rejected_peer_negotiates_version :
  let w1 := exec (_initiator_identified 1 Sample.peer)
                 (Sample.world (Some LSSTATE_WAIT_IDENT)) in
  let w2 := exec (Sample.handle
                    (VersionInfoMessage "0.1.0" 1)) w1 in
  state (self w2) = Some LSSTATE_WAIT_CMD /\
  sent (messenger w2) =
    [ErrorMessage "Identity is not allowed." true; VersionInfoMessage "0.1.0" 1].
Proof. vm_compute. split; reflexivity. Qed.

(** C5 at a version-info message. *)
Lemma unexpected_message_ignored_in_running_witness :
  Sample.handle (VersionInfoMessage "0.1.0" 1)
    (Sample.world (Some LSSTATE_RUNNING))
  = (Sample.world (Some LSSTATE_RUNNING), Return tt).
Proof.
  apply (unexpected_message_ignored_in_running 1 "0.1.0" Sample.hexrep
           (VersionInfoMessage "0.1.0" 1) (Sample.world (Some LSSTATE_RUNNING)));
    reflexivity.
Defined.

(** C6 fails as stated: a second [terminate] with a reason on a session
    in [LSSTATE_ERROR] sends the error message again, and a [terminate]
    after the prune leads to a second teardown of the outlet. *)
Lemma terminate_twice_repeats :
  let w1 := exec (terminate (Some "bye")) (Sample.world (Some LSSTATE_RUNNING)) in
  let w2 := exec _prune w1 in
  let w3 := exec _prune (exec (terminate None) w2) in
  state (self w1) = Some LSSTATE_ERROR /\
  sent_by (terminate (Some "bye")) w1 = [ErrorMessage "bye" true] /\
  state (self w2) = Some LSSTATE_TEARDOWN /\
  teardowns (outlet w2) = 1%nat /\
  teardowns (outlet w3) = 2%nat.
Proof. vm_compute. repeat split. Qed.

(** C6, as the code has it, at a session that has been pruned. *)
Lemma terminate_again_witness :
  let w := exec _prune (exec (terminate (Some "bye"))
                          (Sample.world (Some LSSTATE_RUNNING))) in
  let w' := exec (terminate (Some "again")) w in
  state (self w) = Some LSSTATE_TEARDOWN /\
  sent_by (terminate (Some "again")) w = [] /\
  state (self w') = Some LSSTATE_ERROR /\
  sessions (cls (exec _prune w')) = [] /\
  teardowns (outlet (exec _prune w')) = 2%nat.
Proof.
  destruct (terminate_again (Some "again")
              (exec _prune (exec (terminate (Some "bye"))
                              (Sample.world (Some LSSTATE_RUNNING)))))
    as (Hsilent & _ & _ & _ & Hst & _ & Hprune); [right; reflexivity |].
  destruct Hprune as (Hreg & Htear); [vm_compute; tauto |].
  split; [reflexivity |].
  split; [apply Hsilent; left; reflexivity |].
  split; [exact Hst |].
  split; [exact Hreg | exact Htear].
Defined.

(** C7 at a session that is not running and at a running session with
    output pending on both streams. *)
Lemma pump_sends_at_most_one_witness :
  sent_by pump (Sample.world (Some LSSTATE_WAIT_CMD)) = [] /\
  existsb (is_stream_chunk STREAM_ID_STDOUT)
    (sent_by pump (Sample.running_with Sample.proc Sample.hello Sample.hello None))
  = false.
Proof.
  split.
  - destruct (pump_sends_at_most_one (Sample.world (Some LSSTATE_WAIT_CMD)))
      as (_ & _ & Hidle & _).
    apply Hidle. left. discriminate.
  - destruct (pump_sends_at_most_one
                (Sample.running_with Sample.proc Sample.hello Sample.hello None))
      as (_ & _ & _ & Hstderr).
    apply Hstderr. discriminate.
Defined.

(** C8 fails as stated: the call that sends the command-exited message
    returns false. *)
Lemma exit_message_returns_false :
  let w := Sample.running_with Sample.proc_eof [] [] (Some 0) in
  sent_by pump w = [CommandExitedMessage 0] /\
  eval pump w = Return false.
Proof. vm_compute. split; reflexivity. Qed.

(** C9 at the sample listener and the empty command line at address 3. *)
Lemma empty_remote_command_runs_default_witness :
  let w := Sample.identified (Sample.world (Some LSSTATE_WAIT_CMD)) in
  let run := Sample.handle (Sample.execute 3%positive) in
  objs w !! 3%positive = Some [] /\
  state (self (exec run w)) = Some LSSTATE_RUNNING /\
  sent_by run w = [] /\
  (exists p, process (self (exec run w)) = Some p /\
             argv p = ["/bin/sh"] /\ running p = true).
Proof.
  destruct (empty_remote_command_runs_default 1 "0.1.0" Sample.hexrep
              3%positive false false false None None 24 80 0 0
              (Sample.identified (Sample.world (Some LSSTATE_WAIT_CMD))))
    as (_ & _ & _ & _ & Hrun); try reflexivity.
  destruct (Hrun ["/bin/sh"] Sample.peer) as (Hst & Hsent & _ & Hproc);
    try reflexivity.
  split; [reflexivity |].
  split; [exact Hst |].
  split; [exact Hsent | exact Hproc].
Defined.

(** C10 at a running session whose Messenger refuses the send. *)
Lemma pump_never_raises_witness :
  let w := Sample.send_fails
             (Sample.running_with Sample.proc Sample.hello [] None) in
  eval pump_body w = Raise LinkError /\
  eval pump w = Return false.
Proof.
  split; [reflexivity |].
  apply (pump_never_raises
           (Sample.send_fails (Sample.running_with Sample.proc Sample.hello [] None))
           ) with (e := LinkError).
  reflexivity.
Defined.

(** * Further properties *)

(** ** Draining the output buffers *)

(** [pump] touches only the two buffers, the three latches, the send log
    and the loop's queue. *)
Lemma pump_frame (w : World) :
  let w' := exec pump w in
  state (self w') = state (self w) /\
  process (self w') = process (self w) /\
  return_code (self w') = return_code (self w) /\
  outlet w' = outlet w /\
  cls w' = cls w /\
  objs w' = objs w /\
  outlet_ready (messenger w') = outlet_ready (messenger w) /\
  send_raises (messenger w') = send_raises (messenger w) /\
  later (loop w') = later (loop w).
Proof. cbn zeta. pump_cases w; repeat split. Qed.

(** [pump] always returns, so what follows it runs in the state it
    leaves. *)
Lemma pump_then {A} (m : M A) (w : World) :
  (pump ;; m) w = m (exec pump w).
Proof.
  destruct (try_except_any pump_body false w) as (Hno & _ & _).
  fold pump in Hno. unfold exec, eval in *. cbv [mbind M_bind].
  destruct (pump w) as [w' [b | e]]; simpl in *;
    [reflexivity | exfalso; apply (Hno e); reflexivity].
Qed.

Lemma pump_times_sent_prefix (n : nat) (w : World) :
  sent (messenger (exec (pump_times n) w)) =
  (sent (messenger w) ++ sent_by (pump_times n) w)%list.
Proof.
  revert w. induction n as [| n IH]; intros w.
  - unfold sent_by. cbn. rewrite drop_all, app_nil_r. reflexivity.
  - unfold sent_by, exec. cbn [pump_times]. rewrite pump_then.
    fold (exec (pump_times n) (exec pump w)).
    rewrite IH, pump_sent_prefix, <- app_assoc, drop_app_length.
    reflexivity.
Qed.

(** The messages of [n + 1] ticks are those of the first tick followed
    by those of the remaining [n]. *)
Lemma pump_times_sent_by (n : nat) (w : World) :
  sent_by (pump_times (S n)) w =
  (sent_by pump w ++ sent_by (pump_times n) (exec pump w))%list.
Proof.
  unfold sent_by at 1. unfold exec at 1. cbn [pump_times]. rewrite pump_then.
  fold (exec (pump_times n) (exec pump w)).
  rewrite pump_times_sent_prefix, pump_sent_prefix, <- app_assoc, drop_app_length.
  reflexivity.
Qed.

Lemma pump_times_exec (n : nat) (w : World) :
  exec (pump_times (S n)) w = exec (pump_times n) (exec pump w).
Proof. unfold exec at 1. cbn [pump_times]. rewrite pump_then. reflexivity. Qed.

Lemma payloads_app (sid : StreamId) (l1 l2 : list Message) :
  payloads sid (l1 ++ l2) = (payloads sid l1 ++ payloads sid l2)%list.
Proof. unfold payloads. rewrite map_app, concat_app. reflexivity. Qed.

(** One tick loses no byte: when the Messenger accepts the message and
    the process handle is there, the bytes sent for a stream followed by
    what is left in its buffer are the buffer as it was. *)
Lemma pump_conserves_bytes (sid : StreamId) (w : World) :
  send_raises (messenger w) = false ->
  process (self w) <> None ->
  (payloads sid (sent_by pump w) ++ buf_of sid (self (exec pump w)))%list
  = buf_of sid (self w).
Proof.
  intros Hsend Hproc.
  pump_cases w; sent_done; subst; try congruence;
    destruct sid; cbn; rewrite ?app_nil_r; try reflexivity;
    apply slice_to_from.
Qed.

(** Over any number of ticks the bytes sent for a stream followed by what
    is still buffered are the buffer the ticks started from. *)
Lemma pump_times_bytes (sid : StreamId) (n : nat) (w : World) :
  send_raises (messenger w) = false ->
  process (self w) <> None ->
  (payloads sid (sent_by (pump_times n) w)
   ++ buf_of sid (self (exec (pump_times n) w)))%list
  = buf_of sid (self w).
Proof.
  revert w. induction n as [| n IH]; intros w Hsend Hproc.
  - unfold sent_by. cbn. rewrite drop_all. reflexivity.
  - destruct (pump_frame w) as (_ & Hp & _ & _ & _ & _ & _ & Hs & _).
    rewrite pump_times_sent_by, pump_times_exec, payloads_app, <- app_assoc.
    rewrite IH by congruence.
    apply pump_conserves_bytes; assumption.
Qed.

(** The length of what a positive slice bound leaves behind. *)
Lemma slice_from_length {A} (l : list A) (k : Z) :
  0 < k ->
  length (Py.slice_from l k) = (length l - Z.to_nat k)%nat.
Proof.
  intros Hk. unfold Py.slice_from, Py.slice_index. rewrite length_drop.
  destruct (k <? 0) eqn:E; [apply Z.ltb_lt in E; lia | lia].
Qed.

(** Slicing an empty buffer leaves it empty. *)
Lemma slice_from_short {A} (l : list A) (k : Z) :
  (0 <? Z.of_nat (length l)) = false -> Py.slice_from l k = l.
Proof.
  destruct l; [intros _; unfold Py.slice_from; apply drop_nil | discriminate].
Qed.

Lemma nonempty_length {A} (l : list A) :
  l <> [] -> (0 <? Z.of_nat (length l)) = true.
Proof. destruct l; [congruence | reflexivity]. Qed.

(** One tick of a running, ready session cuts stderr first, and stdout
    only when stderr is empty (whether or not the send succeeds). *)
Lemma pump_buffers_step (w : World) :
  state (self w) = Some LSSTATE_RUNNING ->
  outlet_ready (messenger w) = true ->
  let k := mdu (outlet w) - 16 in
  let w' := exec pump w in
  (stderr_buf (self w) <> [] ->
     stderr_buf (self w') = Py.slice_from (stderr_buf (self w)) k /\
     stdout_buf (self w') = stdout_buf (self w)) /\
  (stderr_buf (self w) = [] ->
     stderr_buf (self w') = [] /\
     stdout_buf (self w') = Py.slice_from (stdout_buf (self w)) k).
Proof.
  intros Hst Hready. cbn zeta. split.
  - intros Herr. apply nonempty_length in Herr.
    pump_cases w; subst; try discriminate; try congruence; split; reflexivity.
  - intros Herr.
    pump_cases w; subst; try discriminate; split;
      first [reflexivity | symmetry; apply slice_from_short; assumption].
Qed.

(** X2.  A running session on a ready outlet that carries more than 16
    bytes drains its buffers: [ne] ticks suffice for a stderr buffer of
    at most [ne] chunks and [no] more for a stdout buffer of at most [no]
    chunks, a chunk being [mdu - 16] bytes.  If the Messenger accepted
    the messages and the process handle is there, the bytes sent are
    exactly the two buffers, each in its order. *)
Theorem pump_times_drains (n ne no : nat) (w : World) :
  state (self w) = Some LSSTATE_RUNNING ->
  outlet_ready (messenger w) = true ->
  16 < mdu (outlet w) ->
  (length (stderr_buf (self w)) <= ne * Z.to_nat (mdu (outlet w) - 16))%nat ->
  (length (stdout_buf (self w)) <= no * Z.to_nat (mdu (outlet w) - 16))%nat ->
  (ne + no <= n)%nat ->
  let w' := exec (pump_times n) w in
  stderr_buf (self w') = [] /\
  stdout_buf (self w') = [] /\
  (send_raises (messenger w) = false -> process (self w) <> None ->
     payloads STREAM_ID_STDERR (sent_by (pump_times n) w) = stderr_buf (self w) /\
     payloads STREAM_ID_STDOUT (sent_by (pump_times n) w) = stdout_buf (self w)).
Proof.
  intros Hst Hready Hmdu Herr Hout Hn w'.
  assert (Hempty : stderr_buf (self w') = [] /\ stdout_buf (self w') = []).
  { subst w'. clear - Hst Hready Hmdu Herr Hout Hn.
    revert w ne no Hst Hready Hmdu Herr Hout Hn.
    induction n as [| n IH]; intros w ne no Hst Hready Hmdu Herr Hout Hn.
    - assert (ne = O /\ no = O) as [-> ->] by lia. cbn in *.
      split; apply length_zero_iff_nil; lia.
    - rewrite pump_times_exec.
      destruct (pump_frame w) as (Hst' & _ & _ & Ho' & _ & _ & Hr' & _).
      destruct (pump_buffers_step w Hst Hready) as (Hstep_err & Hstep_out).
      assert (Hk : 0 < mdu (outlet w) - 16) by lia.
      set (w1 := exec pump w) in *.
      destruct (Nat.eq_dec (length (stderr_buf (self w))) O) as [Hze | Hnze].
      + apply length_zero_iff_nil in Hze.
        destruct (Hstep_out Hze) as (He1 & Ho1).
        destruct (Nat.eq_dec (length (stdout_buf (self w))) O) as [Hzo | Hnzo].
        * apply (IH w1 O O); rewrite ?Ho'; try congruence; try lia.
          -- rewrite He1. simpl. lia.
          -- rewrite Ho1, slice_from_length by exact Hk. lia.
        * destruct no as [| no]; [simpl in Hout; lia |].
          apply (IH w1 O no); rewrite ?Ho'; try congruence; try lia.
          -- rewrite He1. simpl. lia.
          -- rewrite Ho1, slice_from_length by exact Hk. simpl in Hout.
             set (k := Z.to_nat (mdu (outlet w) - 16)) in *. clearbody k. lia.
      + assert (Hne : stderr_buf (self w) <> []).
        { intros Heq. rewrite Heq in Hnze. simpl in Hnze. lia. }
        destruct (Hstep_err Hne) as (He1 & Ho1).
        destruct ne as [| ne]; [simpl in Herr; lia |].
        apply (IH w1 ne no); rewrite ?Ho'; try congruence; try lia.
        rewrite He1, slice_from_length by exact Hk. simpl in Herr.
        set (k := Z.to_nat (mdu (outlet w) - 16)) in *. clearbody k. lia. }
  destruct Hempty as (He & Ho). split; [exact He |]. split; [exact Ho |].
  intros Hsend Hproc. split.
  - pose proof (pump_times_bytes STREAM_ID_STDERR n w Hsend Hproc) as H.
    cbn [buf_of] in H. fold w' in H. rewrite He, app_nil_r in H. exact H.
  - pose proof (pump_times_bytes STREAM_ID_STDOUT n w Hsend Hproc) as H.
    cbn [buf_of] in H. fold w' in H. rewrite Ho, app_nil_r in H. exact H.
Qed.

Lemma pump_times_drains_witness :
  let w := Sample.running_with Sample.proc Sample.hello Sample.hello None in
  stderr_buf (self (exec (pump_times 2) w)) = [] /\
  stdout_buf (self (exec (pump_times 2) w)) = [] /\
  payloads STREAM_ID_STDOUT (sent_by (pump_times 2) w) = Sample.hello.
Proof.
  destruct (pump_times_drains 2 1 1
              (Sample.running_with Sample.proc Sample.hello Sample.hello None))
    as (He & Ho & Hsent); try reflexivity; try (vm_compute; lia).
  destruct Hsent as (_ & Hout); [reflexivity | discriminate |].
  split; [exact He |]. split; [exact Ho | exact Hout].
Defined.

(** X3.  On an outlet that carries at least 16 bytes, every chunk [pump]
    sends fits the outlet: its payload has at most [mdu - 16] bytes. *)
Theorem pump_chunk_fits (sid : StreamId) (m : Message) (w : World) :
  16 <= mdu (outlet w) ->
  In m (sent_by pump w) ->
  Z.of_nat (length (payload sid m)) <= mdu (outlet w) - 16.
Proof.
  intros Hmdu Hin.
  assert (Hslice : forall b : list Byte.byte,
             Z.of_nat (length (Py.slice_to b (mdu (outlet w) - 16)))
             <= mdu (outlet w) - 16).
  { intros b. rewrite slice_to_length. unfold Py.slice_index.
    destruct (mdu (outlet w) - 16 <? 0) eqn:E; [apply Z.ltb_lt in E; lia | lia]. }
  revert Hin. pump_cases w; sent_done; simpl; intros Hin;
    repeat (destruct Hin as [Hin | Hin]); subst; try contradiction;
    destruct sid; simpl; try lia; apply Hslice.
Qed.

Lemma pump_chunk_fits_witness :
  let w := Sample.running_with Sample.proc Sample.hello [] None in
  Z.of_nat (length (payload STREAM_ID_STDOUT
                      (StreamDataMessage STREAM_ID_STDOUT Sample.hello false)))
  <= 240.
Proof.
  apply (pump_chunk_fits STREAM_ID_STDOUT
           (StreamDataMessage STREAM_ID_STDOUT Sample.hello false)
           (Sample.running_with Sample.proc Sample.hello [] None));
    [vm_compute; discriminate | left; reflexivity].
Defined.

(** ** The exit code *)

(** The latches are never reset by a tick. *)
Lemma pump_keeps_latches (w : World) :
  let w' := exec pump w in
  (stderr_eof_sent (self w) = true -> stderr_eof_sent (self w') = true) /\
  (stdout_eof_sent (self w) = true -> stdout_eof_sent (self w') = true) /\
  (return_code_sent (self w) = true -> return_code_sent (self w') = true).
Proof.
  cbn zeta.
  pump_cases w; repeat split; intros; subst; try reflexivity; try discriminate.
Qed.

(** A tick that sends the command-exited message finds both buffers
    empty, a return code on record and the latch open; it sends that code
    and nothing else, and closes the latch. *)
Lemma pump_exit_message (w : World) :
  existsb is_command_exited (sent_by pump w) = true ->
  stderr_buf (self w) = [] /\
  stdout_buf (self w) = [] /\
  return_code_sent (self w) = false /\
  return_code_sent (self (exec pump w)) = true /\
  exists rc, return_code (self w) = Some rc /\
             sent_by pump w = [CommandExitedMessage rc].
Proof.
  pump_cases w; sent_done; simpl; intros Hsent; try discriminate Hsent.
  destruct stderr_buf0; [| discriminate].
  destruct stdout_buf0; [| discriminate].
  destruct return_code_sent0; [discriminate |].
  repeat split. eexists. split; reflexivity.
Qed.

Lemma pump_times_no_exit_message (n : nat) (w : World) :
  return_code_sent (self w) = true ->
  filter (fun m => is_command_exited m = true) (sent_by (pump_times n) w) = [].
Proof.
  revert w. induction n as [| n IH]; intros w Hsent.
  - unfold sent_by. cbn. rewrite drop_all. reflexivity.
  - rewrite pump_times_sent_by, filter_app.
    rewrite IH by (apply pump_keeps_latches; exact Hsent).
    rewrite app_nil_r.
    destruct (existsb is_command_exited (sent_by pump w)) eqn:E.
    + apply pump_exit_message in E. destruct E as (_ & _ & Hopen & _). congruence.
    + clear - E. induction (sent_by pump w) as [| m l IHl]; [reflexivity |].
      simpl in E. apply orb_false_iff in E. destruct E as (Hm & Hl).
      rewrite filter_cons. destruct (decide (is_command_exited m = true));
        [congruence | apply IHl, Hl].
Qed.

(** X4.  The command-exited message goes out at most once, whatever the
    number of ticks, and only from a tick that finds both output buffers
    empty and a return code on record, which it carries. *)
Theorem exit_message_at_most_once (n : nat) (w : World) :
  (length (filter (fun m => is_command_exited m = true)
                  (sent_by (pump_times n) w)) <= 1)%nat /\
  (existsb is_command_exited (sent_by pump w) = true ->
     stderr_buf (self w) = [] /\ stdout_buf (self w) = [] /\
     exists rc, return_code (self w) = Some rc /\
                sent_by pump w = [CommandExitedMessage rc]).
Proof.
  split.
  - revert w. induction n as [| n IH]; intros w.
    + unfold sent_by. cbn. rewrite drop_all. simpl. lia.
    + rewrite pump_times_sent_by, filter_app, length_app.
      destruct (existsb is_command_exited (sent_by pump w)) eqn:E.
      * destruct (pump_exit_message w E) as (_ & _ & _ & Hlatched & rc & _ & Hsent).
        rewrite (pump_times_no_exit_message n _ Hlatched), Hsent. simpl. lia.
      * assert (Hnone : filter (fun m => is_command_exited m = true)
                               (sent_by pump w) = []).
        { clear - E. induction (sent_by pump w) as [| m l IHl]; [reflexivity |].
          simpl in E. apply orb_false_iff in E. destruct E as (Hm & Hl).
          rewrite filter_cons. destruct (decide (is_command_exited m = true));
            [congruence | apply IHl, Hl]. }
        rewrite Hnone. simpl. apply IH.
  - intros E. destruct (pump_exit_message w E) as (He & Ho & _ & _ & Hrc).
    split; [exact He |]. split; [exact Ho | exact Hrc].
Qed.

Lemma exit_message_at_most_once_witness :
  let w := Sample.running_with Sample.proc_eof [] [] (Some 3) in
  return_code (self w) = Some 3 /\
  sent_by pump w = [CommandExitedMessage 3].
Proof.
  destruct (exit_message_at_most_once 1
              (Sample.running_with Sample.proc_eof [] [] (Some 3)))
    as (_ & Hexit).
  destruct Hexit as (_ & _ & rc & Hrc & Hsent); [reflexivity |].
  split; [reflexivity |].
  rewrite Hsent. injection Hrc as <-. reflexivity.
Defined.

(** X5.  A chunk whose send the Messenger refuses is lost: the tick cuts
    the chunk from the buffer before it sends, so when the send raises
    nothing goes out, [pump] returns false, and the buffers are shorter
    than before. *)
Theorem failed_send_drops_chunk (w : World) :
  state (self w) = Some LSSTATE_RUNNING ->
  outlet_ready (messenger w) = true ->
  send_raises (messenger w) = true ->
  16 < mdu (outlet w) ->
  stderr_buf (self w) <> [] \/ stdout_buf (self w) <> [] ->
  let w' := exec pump w in
  sent_by pump w = [] /\
  eval pump w = Return false /\
  (length (stderr_buf (self w')) + length (stdout_buf (self w'))
   < length (stderr_buf (self w)) + length (stdout_buf (self w)))%nat.
Proof.
  intros Hst Hready Hsend Hmdu Hpending w'.
  assert (Hk : 0 < mdu (outlet w) - 16) by lia.
  destruct (pump_buffers_step w Hst Hready) as (Hstep_err & Hstep_out).
  fold w' in Hstep_err, Hstep_out.
  split; [| split].
  - clear - Hsend. pump_cases w; sent_done; subst; discriminate.
  - clear - Hst Hready Hsend Hpending.
    pump_cases w; subst; try reflexivity; try discriminate.
  - destruct (Nat.eq_dec (length (stderr_buf (self w))) O) as [Hz | Hnz].
    + apply length_zero_iff_nil in Hz.
      destruct (Hstep_out Hz) as (He & Ho). rewrite He, Ho, Hz.
      rewrite slice_from_length by exact Hk.
      destruct Hpending as [H | H]; [congruence |].
      destruct (stdout_buf (self w)); [congruence | simpl; lia].
    + assert (Hne : stderr_buf (self w) <> []).
      { intros Heq. rewrite Heq in Hnz. simpl in Hnz. lia. }
      destruct (Hstep_err Hne) as (He & Ho). rewrite He, Ho.
      rewrite slice_from_length by exact Hk. lia.
Qed.

Lemma failed_send_drops_chunk_witness :
  let w := Sample.send_fails
             (Sample.running_with Sample.proc Sample.hello [] None) in
  sent_by pump w = [] /\
  (length (stderr_buf (self (exec pump w))) + length (stdout_buf (self (exec pump w)))
   < 0 + 5)%nat.
Proof.
  destruct (failed_send_drops_chunk
              (Sample.send_fails
                 (Sample.running_with Sample.proc Sample.hello [] None)))
    as (Hsent & _ & Hlen); try reflexivity; [right; discriminate |].
  split; [exact Hsent | exact Hlen].
Defined.

(** X6.  The tick that sends the exit code arms a watchdog of delay
    [max(rtt * 5, 10)], at least 10, whose guard is "still running".  If
    it fires while the session is still in [LSSTATE_RUNNING], the
    session is terminated with a protocol-timeout error named after the
    command-exited message; once the session has left that state the
    watchdog does nothing. *)
Theorem exit_watchdog (rc : Z) (w : World) :
  state (self w) = Some LSSTATE_RUNNING ->
  outlet_ready (messenger w) = true ->
  send_raises (messenger w) = false ->
  stderr_buf (self w) = [] ->
  stdout_buf (self w) = [] ->
  return_code (self w) = Some rc ->
  return_code_sent (self w) = false ->
  let w1 := exec pump w in
  let delay := Py.max (rtt (outlet w) * 5) 10 in
  let fire := _check_protocol_timeout (Some LSSTATE_RUNNING) "CommandExitedMessage" in
  soon (loop w1) =
    (soon (loop w) ++
     [(check_protocol_timeout_task (Some LSSTATE_RUNNING) "CommandExitedMessage",
       delay)])%list /\
  (10 <= delay)%Q /\
  sent_by fire w1 =
    [ErrorMessage "Protocol timeout error: CommandExitedMessage" true] /\
  state (self (exec fire w1)) = Some LSSTATE_ERROR /\
  (forall w2, state (self w2) <> Some LSSTATE_RUNNING -> fire w2 = (w2, Return tt)).
Proof.
  intros Hst Hready Hsend Herr Hout Hrc Hlatch w1 delay fire.
  destruct (pump_frame w) as (Hst1 & _ & _ & _ & _ & _ & _ & Hsend1 & _).
  fold w1 in Hst1, Hsend1.
  assert (Hfire : fire w1 = _protocol_timeout_error "CommandExitedMessage" w1).
  { subst fire. rewrite <- Hst, <- Hst1.
    apply live_guard_times_out. rewrite Hst1, Hst. discriminate. }
  split; [| split; [| split; [| split]]].
  - subst w1 delay. clear - Hst Hready Hsend Herr Hout Hrc Hlatch.
    pump_cases w; subst; try discriminate.
    injection Hrc as <-. reflexivity.
  - apply Py_max_ge_r.
  - unfold sent_by, exec. rewrite Hfire.
    apply (terminate_notifies "Protocol timeout error: CommandExitedMessage" w1);
      [discriminate | rewrite Hst1, Hst; discriminate | congruence].
  - unfold exec. rewrite Hfire.
    apply (terminate_effects
             (Some "Protocol timeout error: CommandExitedMessage") w1).
  - intros w2 Hleft. apply stale_guard_is_noop. exact Hleft.
Qed.

Lemma exit_watchdog_witness :
  let w := Sample.running_with Sample.proc_eof [] [] (Some 0) in
  let w1 := exec pump w in
  let fire := _check_protocol_timeout (Some LSSTATE_RUNNING) "CommandExitedMessage" in
  sent_by fire w1 =
    [ErrorMessage "Protocol timeout error: CommandExitedMessage" true] /\
  state (self (exec fire w1)) = Some LSSTATE_ERROR.
Proof.
  destruct (exit_watchdog 0 (Sample.running_with Sample.proc_eof [] [] (Some 0)))
    as (_ & _ & Hsent & Hstate & _); try reflexivity.
  split; [exact Hsent | exact Hstate].
Defined.

(** ** Termination and teardown *)

(** X7.  [terminate] cannot fail: whether or not the error message can
    be sent, it returns, leaves the session in [LSSTATE_ERROR] with one
    prune queued at delay [max(rtt * 3, 5)], sends at most the one error
    message, and asks a running process to terminate exactly once, while
    a process that is not running (or absent) is left alone. *)
Theorem terminate_cannot_fail (error : option string) (w : World) :
  let w' := exec (terminate error) w in
  eval (terminate error) w = Return tt /\
  state (self w') = Some LSSTATE_ERROR /\
  soon (loop w') =
    (soon (loop w) ++ [(prune_task, Py.max (rtt (outlet w) * 3) 5)])%list /\
  (sent_by (terminate error) w = [] \/
   sent_by (terminate error) w = [ErrorMessage (default EmptyString error) true]) /\
  process (self w') =
    match process (self w) with
    | Some p => if running p
                then Some (Upd.terminate_calls (S (terminate_calls p)) p)
                else Some p
    | None => None
    end.
Proof.
  cbn zeta. split; [apply terminate_returns |].
  destruct (terminate_effects error w) as (_ & _ & _ & Hst & Hsoon).
  split; [exact Hst |]. split; [exact Hsoon |].
  split.
  - terminate_cases w; sent_done; auto.
  - terminate_cases w; reflexivity.
Qed.

(** [list.remove] drops the first occurrence and nothing else. *)
Lemma list_remove_first (x : nat) (l1 l2 : list nat) :
  ~ In x l1 -> Py.list_remove x (l1 ++ x :: l2) = Some (l1 ++ l2)%list.
Proof.
  induction l1 as [| y l1 IH]; simpl; intros Hnot.
  - rewrite Nat.eqb_refl. reflexivity.
  - destruct (Nat.eqb y x) eqn:E; [apply Nat.eqb_eq in E; tauto |].
    rewrite IH by tauto. reflexivity.
Qed.

(** X8.  [_prune] cannot fail either: it returns even when the session
    is no longer registered or the outlet's teardown raises, leaves the
    session in [LSSTATE_TEARDOWN] and calls the teardown once.  It takes
    the session's first entry out of the registry and keeps every other
    entry in place; a registry without the session is left as it is. *)
Theorem prune_unregisters (w : World) :
  let w' := exec _prune w in
  eval _prune w = Return tt /\
  state (self w') = Some LSSTATE_TEARDOWN /\
  teardowns (outlet w') = S (teardowns (outlet w)) /\
  (~ In (self_id w) (sessions (cls w)) -> sessions (cls w') = sessions (cls w)) /\
  (forall l1 l2, sessions (cls w) = (l1 ++ self_id w :: l2)%list ->
                 ~ In (self_id w) l1 ->
                 sessions (cls w') = (l1 ++ l2)%list).
Proof.
  cbn zeta. split; [| split; [| split; [| split]]].
  - open_world w. unfold _prune, Outlet_teardown. run.
    unfold only_ValueError. repeat branch; reflexivity.
  - open_world w. unfold _prune, Outlet_teardown. run.
    unfold only_ValueError. repeat branch; reflexivity.
  - open_world w. unfold _prune, Outlet_teardown. run.
    unfold only_ValueError. repeat branch; reflexivity.
  - intros Hnot. apply (prune_unregistered w Hnot).
  - intros l1 l2 Hreg Hnot.
    pose proof (list_remove_first (self_id w) l1 l2 Hnot) as Hrm.
    rewrite <- Hreg in Hrm.
    open_world w. unfold _prune, Outlet_teardown. run.
    rewrite Hrm. cbn. repeat branch; reflexivity.
Qed.

Lemma prune_unregisters_witness :
  let w := Sample.world (Some LSSTATE_ERROR) in
  sessions (cls w) = ([] ++ self_id w :: [])%list /\
  sessions (cls (exec _prune w)) = ([] ++ [])%list.
Proof.
  destruct (prune_unregisters (Sample.world (Some LSSTATE_ERROR)))
    as (_ & _ & _ & _ & Hrm).
  split; [reflexivity |].
  apply (Hrm [] []); [reflexivity | simpl; tauto].
Defined.

(** ** The session's life in the loop *)

(** The delays of watchdogs and prunes are never zero, so [call_inner]
    never runs them on the spot. *)
Lemma delay_nonzero (a b : Q) : (0 < b)%Q -> Qeq_bool (Py.max a b) 0 = false.
Proof.
  intros Hb. destruct (Qeq_bool (Py.max a b) 0) eqn:E; [| reflexivity].
  apply Qeq_bool_iff in E. pose proof (Py_max_ge_r a b) as Hge.
  rewrite E in Hge. exfalso. apply (Qlt_not_le _ _ Hb Hge).
Qed.

Lemma watchdog_delay_nonzero (r f : Q) :
  Qeq_bool (Py.max (r * f) (Py.max (r * 2) 10)) 0 = false.
Proof.
  apply delay_nonzero.
  apply Qlt_le_trans with (y := 10%Q); [reflexivity | apply Py_max_ge_r].
Qed.

Lemma prune_delay_nonzero (r : Q) : Qeq_bool (Py.max (r * 3) 5) 0 = false.
Proof. apply delay_nonzero. reflexivity. Qed.

Local Opaque Qeq_bool.

(** X9.  The life of a session in the loop.  Constructed in a loop that
    holds nothing else, then terminated, the session is registered and
    in [LSSTATE_ERROR]; its first watchdog and its prune have become
    timers, neither has run.  When the prune timer elapses the session is
    in [LSSTATE_TEARDOWN], the registry is what it was before the
    construction and the outlet has been torn down once.  The watchdog
    that elapses afterwards sends nothing and changes nothing. *)
Theorem session_life (error : option string) (w : World) :
  soon (loop w) = [] ->
  later (loop w) = [] ->
  ~ In (self_id w) (sessions (cls w)) ->
  let started := exec (__init__ ;; terminate error ;; loop_run_all_soon 2) w in
  let pruned := exec (loop_fire 1) started in
  let final := exec (loop_fire 0) pruned in
  state (self started) = Some LSSTATE_ERROR /\
  sessions (cls started) = (sessions (cls w) ++ [self_id w])%list /\
  soon (loop started) = [] /\
  later (loop started) =
    [(Py.max (rtt (outlet w) * 10) (Py.max (rtt (outlet w) * 2) 10),
      check_protocol_timeout_task None "LSSTATE_WAIT_IDENT");
     (Py.max (rtt (outlet w) * 3) 5, prune_task)] /\
  state (self pruned) = Some LSSTATE_TEARDOWN /\
  sessions (cls pruned) = sessions (cls w) /\
  teardowns (outlet pruned) = S (teardowns (outlet w)) /\
  state (self final) = Some LSSTATE_TEARDOWN /\
  sent (messenger final) = sent (messenger pruned) /\
  loop final = {| soon := []; later := [] |}.
Proof.
  intros Hsoon Hlater Hnot. cbn zeta.
  pose proof (list_remove_first (self_id w) (sessions (cls w)) [] Hnot) as Hrm.
  rewrite app_nil_r in Hrm.
  open_world w. subst.
  unfold __init__, _set_state, terminate, _terminate_process, loop_run_all_soon,
    loop_run_soon, call_inner, loop_fire, run_task, _prune, Outlet_teardown,
    _check_protocol_timeout, call_fail_condition, _protocol_timeout_error.
  run.
  repeat (first [ rewrite watchdog_delay_nonzero | rewrite prune_delay_nonzero
                | rewrite Hrm | branch ]; cbn).
  all: repeat split.
Qed.

Local Transparent Qeq_bool.


Lemma session_life_witness :
  let w := Sample.before_construction in
  let started := exec (__init__ ;; terminate (Some "bye") ;; loop_run_all_soon 2) w in
  let pruned := exec (loop_fire 1) started in
  sessions (cls started) = [3%nat; 7%nat] /\
  state (self pruned) = Some LSSTATE_TEARDOWN /\
  sessions (cls pruned) = [3%nat].
Proof.
  destruct (session_life (Some "bye") Sample.before_construction)
    as (_ & Hreg & _ & _ & Hst & Hback & _); try reflexivity.
  { simpl. intros [H | []]. discriminate H. }
  split; [exact Hreg |]. split; [exact Hst | exact Hback].
Defined.

(** ** Message dispatch *)

Section DispatchFacts.

Variable PROTOCOL_VERSION : Z.
Variable SW_VERSION : string.
Variable prettyhexrep : list Byte.byte -> string.
Variable Messenger_receive : list Byte.byte -> Result Message.
Variable Exception_str : Exception -> string.

Let handle := _handle_message PROTOCOL_VERSION SW_VERSION prettyhexrep.
Let received :=
  _packet_received PROTOCOL_VERSION SW_VERSION prettyhexrep Messenger_receive
                   Exception_str.

(** Evaluate the concatenations of string literals in the goal. *)
Ltac literals :=
  repeat match goal with
         | |- context [String.append ?a ?b] =>
             let r := eval cbv in (String.append a b) in
             change (String.append a b) with r
         end.

Ltac handle_cases w :=
  subst handle;
  unfold _handle_message, _start_cmd, _set_state, spawn_process, state_name,
    _set_window_size, _received_stdin, self_cmdline, list_extend,
    _protocol_error, terminate, _terminate_process in *;
  open_world w; subst; run.

(** X10.  Version negotiation succeeds only on a version-info message
    that carries the listener's protocol version: the listener answers
    with its own version-info message and waits for the command, with a
    new watchdog queued. *)
Theorem version_accepted (sw : string) (w : World) :
  state (self w) = Some LSSTATE_WAIT_VERS ->
  send_raises (messenger w) = false ->
  let run := handle (VersionInfoMessage sw PROTOCOL_VERSION) in
  sent_by run w = [VersionInfoMessage SW_VERSION PROTOCOL_VERSION] /\
  state (self (exec run w)) = Some LSSTATE_WAIT_CMD /\
  process (self (exec run w)) = process (self w) /\
  soon (loop (exec run w)) =
    (soon (loop w) ++
     [(check_protocol_timeout_task (Some LSSTATE_WAIT_VERS) "LSSTATE_WAIT_CMD",
       Py.max (rtt (outlet w) * 10) (Py.max (rtt (outlet w) * 2) 10))])%list.
Proof.
  intros Hst Hsend. cbn zeta. handle_cases w.
  rewrite Z.eqb_refl. cbn. sent_done. repeat split.
Qed.

(** X11.  Any other message in [LSSTATE_WAIT_VERS] ends the session: a
    version-info message of another protocol version with the reason
    "Incompatible protocol", a message of another class with a protocol
    error named after the state.  No version-info answer is sent, the
    session is in [LSSTATE_ERROR] and a prune is queued. *)
Theorem version_rejected (message : Message) (w : World) :
  state (self w) = Some LSSTATE_WAIT_VERS ->
  send_raises (messenger w) = false ->
  (forall sw, message <> VersionInfoMessage sw PROTOCOL_VERSION) ->
  let run := handle message in
  sent_by run w =
    [ErrorMessage
       match message with
       | VersionInfoMessage _ _ => "Incompatible protocol"
       | _ => "Protocol error (LSSTATE_WAIT_VERS)"
       end true] /\
  state (self (exec run w)) = Some LSSTATE_ERROR /\
  soon (loop (exec run w)) =
    (soon (loop w) ++ [(prune_task, Py.max (rtt (outlet w) * 3) 5)])%list.
Proof.
  intros Hst Hsend Hother. cbn zeta. handle_cases w.
  destruct message; cbn; literals; cbn;
    try (repeat branch; sent_done; repeat split; fail).
  destruct (protocol_version =? PROTOCOL_VERSION) eqn:E.
  - apply Z.eqb_eq in E. subst. exfalso. apply (Hother sw_version). reflexivity.
  - cbn. repeat branch; sent_done; repeat split.
Qed.

(** X12.  In [LSSTATE_WAIT_CMD] a message that is not an execute-command
    message is a protocol error named after the state: the session is in
    [LSSTATE_ERROR] with a prune queued, no process has been started and
    the shared command lines are untouched. *)
Theorem command_expected (message : Message) (w : World) :
  state (self w) = Some LSSTATE_WAIT_CMD ->
  send_raises (messenger w) = false ->
  process (self w) = None ->
  match message with
  | ExecuteCommandMesssage _ _ _ _ _ _ _ _ _ _ => False
  | _ => True
  end ->
  let run := handle message in
  sent_by run w = [ErrorMessage "Protocol error (LSSTATE_WAIT_CMD)" true] /\
  state (self (exec run w)) = Some LSSTATE_ERROR /\
  process (self (exec run w)) = None /\
  objs (exec run w) = objs w /\
  soon (loop (exec run w)) =
    (soon (loop w) ++ [(prune_task, Py.max (rtt (outlet w) * 3) 5)])%list.
Proof.
  intros Hst Hsend Hproc Hclass. cbn zeta. handle_cases w.
  destruct message; try contradiction; cbn; literals; cbn; sent_done;
    repeat split.
Qed.

(** X13.  A message handled before the peer is identified (the session
    is in [LSSTATE_WAIT_IDENT]) ends the session with the protocol error
    "unexpected message", whatever its class. *)
Theorem message_before_identity (message : Message) (w : World) :
  state (self w) = Some LSSTATE_WAIT_IDENT ->
  send_raises (messenger w) = false ->
  let run := handle message in
  sent_by run w = [ErrorMessage "Protocol error (unexpected message)" true] /\
  state (self (exec run w)) = Some LSSTATE_ERROR /\
  soon (loop (exec run w)) =
    (soon (loop w) ++ [(prune_task, Py.max (rtt (outlet w) * 3) 5)])%list.
Proof.
  intros Hst Hsend. cbn zeta. handle_cases w. literals. cbn.
  repeat branch; sent_done; repeat split.
Qed.

(** X14.  A session in [LSSTATE_ERROR] or [LSSTATE_TEARDOWN] ignores
    every message: nothing is sent, nothing changes. *)
Theorem dead_session_ignores (message : Message) (w : World) :
  state (self w) = Some LSSTATE_ERROR \/ state (self w) = Some LSSTATE_TEARDOWN ->
  handle message w = (w, Return tt).
Proof.
  intros [Hst | Hst]; handle_cases w; reflexivity.
Qed.

(** What one stdin message does to the process handle: the payload is
    written unless it is empty, stdin is closed if the message is flagged
    end-of-stream. *)
Lemma stdin_step (data : list Byte.byte) (eof : bool) (p : CallbackSubprocess)
    (w : World) :
  state (self w) = Some LSSTATE_RUNNING ->
  process (self w) = Some p ->
  exists p',
    handle (stdin_message data eof) w
      = (Upd.self (Upd.process (Some p')) w, Return tt) /\
    written p' = (written p ++ if 0 <? Z.of_nat (length data) then [data] else [])%list /\
    stdin_closed p' = (stdin_closed p + if eof then 1 else 0)%nat /\
    running p' = running p /\
    argv p' = argv p.
Proof.
  intros Hst Hproc.
  pose (p1 := if 0 <? Z.of_nat (length data)
              then Upd.written (written p ++ [data]) p else p).
  exists (if eof then Upd.stdin_closed (S (stdin_closed p1)) p1 else p1).
  subst p1. handle_cases w. destruct p.
  destruct (0 <? Z.of_nat (length data)), eof; cbn;
    rewrite ?app_nil_r, ?Nat.add_0_r, ?Nat.add_1_r; repeat split.
Qed.

(** X15.  Stdin messages reach the process in the order received: after
    a sequence of stream-data messages tagged stdin, the process has been
    written their non-empty payloads, in order, and its stdin has been
    closed once per message flagged end-of-stream.  Nothing is sent back
    and the session stays in [LSSTATE_RUNNING]. *)
Theorem stdin_delivered (msgs : list (list Byte.byte * bool))
    (p : CallbackSubprocess) (w : World) :
  state (self w) = Some LSSTATE_RUNNING ->
  process (self w) = Some p ->
  let run := handle_all handle (map (fun m => stdin_message (fst m) (snd m)) msgs) in
  eval run w = Return tt /\
  sent_by run w = [] /\
  state (self (exec run w)) = Some LSSTATE_RUNNING /\
  exists p',
    process (self (exec run w)) = Some p' /\
    written p' =
      (written p
       ++ List.filter (fun d => 0 <? Z.of_nat (length d)) (map fst msgs))%list /\
    stdin_closed p' = (stdin_closed p + length (List.filter snd msgs))%nat /\
    running p' = running p.
Proof.
  cbn zeta. revert p w. induction msgs as [| [data eof] msgs IH]; intros p w Hst Hproc.
  - unfold sent_by, eval, exec. cbn. rewrite drop_all.
    repeat split; [exact Hst |]. exists p.
    rewrite app_nil_r, Nat.add_0_r. repeat split. exact Hproc.
  - destruct (stdin_step data eof p w Hst Hproc)
      as (p1 & Hstep & Hwritten & Hclosed & Hrunning & _).
    cbn [map handle_all fst snd].
    set (w1 := Upd.self (Upd.process (Some p1)) w) in *.
    assert (Hbind : forall rest : M unit,
               (handle (stdin_message data eof) ;; rest) w = rest w1).
    { intros rest. cbv [mbind M_bind]. rewrite Hstep. reflexivity. }
    destruct (IH p1 w1) as (Heval & Hsent & Hstate & p' & Hp' & Hw' & Hc' & Hr').
    { subst w1. destruct w. exact Hst. }
    { subst w1. destruct w. reflexivity. }
    unfold sent_by, eval, exec in *. rewrite !Hbind.
    assert (Hlog : sent (messenger w1) = sent (messenger w))
      by (subst w1; destruct w; reflexivity).
    rewrite Hlog in Hsent.
    repeat split; try assumption.
    exists p'. split; [exact Hp' |].
    rewrite Hw', Hc', Hwritten, Hclosed, Hr', Hrunning. cbn [List.filter map fst snd].
    destruct (0 <? Z.of_nat (length data)), eof; cbn [length];
      rewrite <- ?app_assoc, ?app_nil_r; repeat split; simpl; lia.
Qed.

(** X16.  Stream data that is not tagged stdin is a protocol error: the
    session is terminated with a protocol error named after the running
    state, and nothing of the message reaches the process. *)
Theorem stream_tag_checked (sid : StreamId) (data : list Byte.byte) (eof : bool)
    (w : World) :
  state (self w) = Some LSSTATE_RUNNING ->
  send_raises (messenger w) = false ->
  sid <> STREAM_ID_STDIN ->
  let run := handle (StreamDataMessage sid data eof) in
  sent_by run w = [ErrorMessage "Protocol error (LSSTATE_RUNNING)" true] /\
  state (self (exec run w)) = Some LSSTATE_ERROR /\
  written <$> process (self (exec run w)) = written <$> process (self w) /\
  stdin_closed <$> process (self (exec run w)) = stdin_closed <$> process (self w).
Proof.
  intros Hst Hsend Htag. cbn zeta. handle_cases w.
  destruct sid; [congruence | |]; cbn; literals; cbn;
    repeat branch; sent_done; repeat split.
Qed.

(** X17.  A no-op message is echoed back as it is and changes nothing
    else; when the echo cannot be sent, the exception leaves
    [_handle_message]. *)
Theorem noop_echoed (w : World) :
  state (self w) = Some LSSTATE_RUNNING ->
  (send_raises (messenger w) = false ->
     handle NoopMessage w
     = (Upd.messenger (Upd.sent (sent (messenger w) ++ [NoopMessage])) w,
        Return tt)) /\
  (send_raises (messenger w) = true ->
     handle NoopMessage w = (w, Raise LinkError)).
Proof.
  intros Hst. split; intros Hsend; handle_cases w; reflexivity.
Qed.

(** X18.  A window-size message is recorded on the session and passed to
    the process; without a process handle the resize is skipped, the
    message is still accepted.  Nothing is sent and the session keeps
    running. *)
Theorem window_resized (r c h v : Z) (w : World) :
  state (self w) = Some LSSTATE_RUNNING ->
  let run := handle (WindowSizeMessage r c h v) in
  let s' := self (exec run w) in
  eval run w = Return tt /\
  (rows s', cols s', hpix s', vpix s') = (r, c, h, v) /\
  winsize <$> process s' = (fun _ => Some (r, c, h, v)) <$> process (self w) /\
  state s' = Some LSSTATE_RUNNING /\
  sent_by run w = [].
Proof.
  intros Hst. cbn zeta. handle_cases w.
  repeat branch; sent_done; repeat split.
Qed.

(** X19.  A listener that does not allow remote commands rejects an
    execute-command message that carries one: the session is terminated
    with the reason "Remote command line not allowed by listener", no
    process is started and the stored command lines are unchanged. *)
Theorem remote_command_rejected
    (cl : loc) (token : string) (tokens : list string)
    (pipe_stdin pipe_stdout pipe_stderr : bool) (tcflags : option (list Z))
    (term : option string) (rows cols hpix vpix : Z) (w : World) :
  state (self w) = Some LSSTATE_WAIT_CMD ->
  allow_remote_command (cls w) = false ->
  objs w !! cl = Some (token :: tokens) ->
  send_raises (messenger w) = false ->
  process (self w) = None ->
  let run := handle (ExecuteCommandMesssage (Some cl) pipe_stdin pipe_stdout
                       pipe_stderr tcflags term rows cols hpix vpix) in
  sent_by run w =
    [ErrorMessage "Remote command line not allowed by listener" true] /\
  state (self (exec run w)) = Some LSSTATE_ERROR /\
  process (self (exec run w)) = None /\
  objs (exec run w) = objs w /\
  soon (loop (exec run w)) =
    (soon (loop w) ++
     [(check_protocol_timeout_task (Some LSSTATE_WAIT_CMD) "LSSTATE_RUNNING",
       Py.max (rtt (outlet w) * 10) (Py.max (rtt (outlet w) * 2) 10));
      (prune_task, Py.max (rtt (outlet w) * 3) 5)])%list.
Proof.
  intros Hst Hallow Hcl Hsend Hproc. cbn zeta. handle_cases w.
  rewrite Hcl. cbn. sent_done. rewrite <- app_assoc. repeat split.
Qed.

(** X20.  A listener that allows remote commands and does not pass them
    as arguments runs the remote command line in place of the default
    one: the process is started with exactly the remote tokens, the
    stored command lines are unchanged and nothing is sent. *)
Theorem remote_command_replaces_default
    (cl : loc) (token : string) (tokens : list string) (ident : Identity)
    (pipe_stdin pipe_stdout pipe_stderr : bool) (tcflags : option (list Z))
    (term : option string) (rows cols hpix vpix : Z) (w : World) :
  state (self w) = Some LSSTATE_WAIT_CMD ->
  allow_remote_command (cls w) = true ->
  remote_cmd_as_args (cls w) = false ->
  objs w !! cl = Some (token :: tokens) ->
  remote_identity (self w) = Some ident ->
  spawn_raises w = false ->
  let run := handle (ExecuteCommandMesssage (Some cl) pipe_stdin pipe_stdout
                       pipe_stderr tcflags term rows cols hpix vpix) in
  state (self (exec run w)) = Some LSSTATE_RUNNING /\
  sent_by run w = [] /\
  objs (exec run w) = objs w /\
  cmdline (self (exec run w)) = Some cl /\
  exists p, process (self (exec run w)) = Some p /\
            argv p = token :: tokens /\
            running p = true /\
            env_RNS_REMOTE_IDENTITY p = prettyhexrep (hash ident) /\
            winsize p = Some (rows, cols, hpix, vpix).
Proof.
  intros Hst Hallow Hargs Hcl Hident Hspawn. cbn zeta.
  destruct ident as [h]. handle_cases w.
  rewrite Hcl. cbn. rewrite Hcl. cbn. sent_done.
  repeat split. eexists. repeat split.
Qed.

(** X21.  When the process cannot be started, because the start raises
    or because no peer identity is on record for its environment, the
    session is terminated with the reason "Unable to start process", and
    no process is left running. *)
Theorem process_start_failure
    (dflt : list string) (pipe_stdin pipe_stdout pipe_stderr : bool)
    (tcflags : option (list Z)) (term : option string)
    (rows cols hpix vpix : Z) (w : World) :
  state (self w) = Some LSSTATE_WAIT_CMD ->
  process (self w) = None ->
  objs w !! default_command (cls w) = Some dflt ->
  send_raises (messenger w) = false ->
  remote_identity (self w) = None \/ spawn_raises w = true ->
  let run := handle (ExecuteCommandMesssage None pipe_stdin pipe_stdout
                       pipe_stderr tcflags term rows cols hpix vpix) in
  sent_by run w = [ErrorMessage "Unable to start process" true] /\
  state (self (exec run w)) = Some LSSTATE_ERROR /\
  (forall p, process (self (exec run w)) = Some p -> running p = false).
Proof.
  intros Hst Hproc Hdflt Hsend Hfail. cbn zeta. handle_cases w.
  rewrite ?andb_false_r. cbn.
  destruct Hfail as [Hident | Hspawn]; subst; cbn.
  - sent_done. repeat split. intros p Hp. discriminate Hp.
  - destruct remote_identity0 as [[h] |]; cbn; rewrite ?Hdflt; cbn;
      sent_done; repeat split; intros p Hp;
      [injection Hp as <-; reflexivity | discriminate Hp].
Qed.

(** A [try] whose handler always returns does not raise. *)
Lemma try_except_handled {A} (body : M A) (handler : Exception -> M A)
    (v : A) (w : World) :
  (forall e w', eval (handler e) w' = Return v) ->
  (forall a, eval body w = Return a -> a = v) ->
  eval (try_except body any_Exception handler) w = Return v.
Proof.
  intros Hhandler Hbody. unfold eval, try_except, any_Exception in *.
  destruct (body w) as [w' [a | e]]; simpl in *.
  - rewrite (Hbody a eq_refl). reflexivity.
  - apply Hhandler.
Qed.

(** X22.  [_packet_received] never raises, whatever the bytes and
    whatever happens while the message is handled.  Bytes that cannot be
    decoded end the session with a protocol error that quotes the
    decoder's exception. *)
Theorem packet_errors_contained (raw : list Byte.byte) (w : World) :
  let run := received (outlet_id (outlet w)) raw in
  eval run w = Return tt /\
  (forall e, Messenger_receive raw = Raise e ->
     send_raises (messenger w) = false ->
     state (self w) <> Some LSSTATE_TEARDOWN ->
     sent_by run w =
       [ErrorMessage ("Protocol error (error receiving packet: "
                      ++ Exception_str e ++ ")") true] /\
     state (self (exec run w)) = Some LSSTATE_ERROR).
Proof.
  cbn zeta. split.
  - subst received. unfold _packet_received.
    cbv [mbind M_bind gets eval]. rewrite Nat.eqb_refl. cbn [negb].
    apply try_except_handled.
    + intros e w'. apply terminate_returns.
    + intros []. reflexivity.
  - intros e Hdecode Hsend Hst.
    subst received. unfold _packet_received.
    assert (Hrun : forall w0 : World,
               try_except
                 (match Messenger_receive raw with
                  | Return message => handle message
                  | Raise e0 => raise e0
                  end) any_Exception
                 (fun ex => _protocol_error
                              ("error receiving packet: " ++ Exception_str ex)) w0
               = terminate (Some ("Protocol error (error receiving packet: "
                                  ++ Exception_str e ++ ")")) w0).
    { intros w0. rewrite Hdecode. reflexivity. }
    unfold sent_by, exec. cbv [mbind M_bind gets]. rewrite Nat.eqb_refl. cbn [negb].
    subst handle. rewrite Hrun. split.
    + apply (terminate_notifies _ w); [discriminate | exact Hst | exact Hsend].
    + apply (terminate_effects _ w).
Qed.


End DispatchFacts.

(** ** Link and identity callbacks *)

(** X24.  A link-closed notice from the session's own outlet ends the
    session quietly: the callback is unset, the Messenger's retries for
    the outlet are cleared, no error message is sent, and the session is
    in [LSSTATE_ERROR] with its prune queued. *)
Theorem link_closed_quietly (w : World) :
  let run := _link_closed (outlet_id (outlet w)) in
  let w' := exec run w in
  eval run w = Return tt /\
  sent_by run w = [] /\
  state (self w') = Some LSSTATE_ERROR /\
  link_closed_callback (outlet w') = false /\
  retries_cleared (messenger w') = S (retries_cleared (messenger w)) /\
  soon (loop w') =
    (soon (loop w) ++ [(prune_task, Py.max (rtt (outlet w) * 3) 5)])%list.
Proof.
  cbn zeta. unfold _link_closed, terminate, _terminate_process.
  open_world w. run. rewrite Nat.eqb_refl. cbn.
  repeat branch; sent_done; repeat split.
Qed.

(** X25.  The authentication gate lets a peer through when allow-all is
    set or its identity hash is on the allow-list: nothing is sent, the
    identity is recorded, the packet-received callback is registered and
    the session waits for the version, with one watchdog queued and no
    prune. *)
Theorem identity_accepted (identity : Identity) (w : World) :
  state (self w) = Some LSSTATE_WAIT_IDENT ->
  allow_all (cls w) = true \/
  hash_in (hash identity) (allowed_identity_hashes (cls w)) = true ->
  let run := _initiator_identified (outlet_id (outlet w)) identity in
  let w' := exec run w in
  sent_by run w = [] /\
  state (self w') = Some LSSTATE_WAIT_VERS /\
  remote_identity (self w') = Some identity /\
  packet_received_callback (outlet w') = true /\
  soon (loop w') =
    (soon (loop w) ++
     [(check_protocol_timeout_task (Some LSSTATE_WAIT_IDENT) "LSSTATE_WAIT_VERS",
       Py.max (rtt (outlet w) * 10) (Py.max (rtt (outlet w) * 2) 10))])%list.
Proof.
  intros Hst Hallowed. cbn zeta.
  destruct identity as [h]. open_world w. subst.
  unfold _initiator_identified, _set_state, terminate, _terminate_process. run.
  unfold hash_in in *. rewrite Nat.eqb_refl. cbn.
  destruct Hallowed as [Hall | Hhash].
  - subst. cbn. sent_done. repeat split.
  - rewrite Hhash, andb_false_r. cbn. sent_done. repeat split.
Qed.

Lemma identity_accepted_witness :
  let w := Sample.world_of
             {| sessions := [7%nat]; allowed_identity_hashes := [hash Sample.peer];
                allow_all := false; allow_remote_command := false;
                default_command := 1%positive; remote_cmd_as_args := false |}
             (Some LSSTATE_WAIT_IDENT) in
  let run := _initiator_identified 1 Sample.peer in
  sent_by run w = [] /\
  state (self (exec run w)) = Some LSSTATE_WAIT_VERS.
Proof.
  destruct (identity_accepted Sample.peer
              (Sample.world_of
                 {| sessions := [7%nat]; allowed_identity_hashes := [hash Sample.peer];
                    allow_all := false; allow_remote_command := false;
                    default_command := 1%positive; remote_cmd_as_args := false |}
                 (Some LSSTATE_WAIT_IDENT)))
    as (Hsent & Hst & _); [reflexivity | right; reflexivity |].
  split; [exact Hsent | exact Hst].
Defined.

(** ** The handshake *)

Section Handshake.

Variable PROTOCOL_VERSION : Z.
Variable SW_VERSION : string.
Variable prettyhexrep : list Byte.byte -> string.

Let handle := _handle_message PROTOCOL_VERSION SW_VERSION prettyhexrep.

(** X26.  The three steps of the handshake compose.  An allowed peer
    that identifies itself, then sends a version-info message of the
    listener's protocol version, then an execute-command message without
    a command line, ends with the session in [LSSTATE_RUNNING] and the
    default command running under the peer's identity.  The only message
    sent is the listener's version-info answer, and the loop has been
    given the three watchdogs of the transitions and no prune. *)
Theorem handshake (identity : Identity) (sw : string) (dflt : list string)
    (pipe_stdin pipe_stdout pipe_stderr : bool) (tcflags : option (list Z))
    (term : option string) (rows cols hpix vpix : Z) (w : World) :
  state (self w) = Some LSSTATE_WAIT_IDENT ->
  allow_all (cls w) = true \/
  hash_in (hash identity) (allowed_identity_hashes (cls w)) = true ->
  send_raises (messenger w) = false ->
  objs w !! default_command (cls w) = Some dflt ->
  spawn_raises w = false ->
  let run :=
    _initiator_identified (outlet_id (outlet w)) identity ;;
    handle (VersionInfoMessage sw PROTOCOL_VERSION) ;;
    handle (ExecuteCommandMesssage None pipe_stdin pipe_stdout pipe_stderr
              tcflags term rows cols hpix vpix) in
  let w' := exec run w in
  let delay := Py.max (rtt (outlet w) * 10) (Py.max (rtt (outlet w) * 2) 10) in
  eval run w = Return tt /\
  state (self w') = Some LSSTATE_RUNNING /\
  sent_by run w = [VersionInfoMessage SW_VERSION PROTOCOL_VERSION] /\
  objs w' = objs w /\
  soon (loop w') =
    (soon (loop w) ++
     [(check_protocol_timeout_task (Some LSSTATE_WAIT_IDENT) "LSSTATE_WAIT_VERS", delay);
      (check_protocol_timeout_task (Some LSSTATE_WAIT_VERS) "LSSTATE_WAIT_CMD", delay);
      (check_protocol_timeout_task (Some LSSTATE_WAIT_CMD) "LSSTATE_RUNNING", delay)])%list /\
  exists p, process (self w') = Some p /\
            argv p = dflt /\
            running p = true /\
            env_RNS_REMOTE_IDENTITY p = prettyhexrep (hash identity).
Proof.
  intros Hst Hallowed Hsend Hdflt Hspawn. cbn zeta. subst handle.
  destruct identity as [h].
  unfold _initiator_identified, _handle_message, _start_cmd, _set_state,
    spawn_process, state_name, _set_window_size, self_cmdline,
    _protocol_error, terminate, _terminate_process.
  open_world w. subst. run.
  unfold hash_in in *. rewrite Nat.eqb_refl. cbn.
  assert (Hgate : negb allow_all0
                  && negb (existsb (bytes_eqb h) allowed_identity_hashes0) = false).
  { destruct Hallowed as [-> | ->]; [reflexivity | apply andb_false_r]. }
  rewrite Hgate. cbn. rewrite Z.eqb_refl. cbn.
  rewrite ?andb_false_r. cbn. rewrite Hdflt. cbn.
  sent_done. rewrite <- !app_assoc. repeat split.
  eexists. repeat split.
Qed.

End Handshake.

Lemma handshake_witness :
  let w := Sample.world_of
             {| sessions := [7%nat]; allowed_identity_hashes := [];
                allow_all := true; allow_remote_command := false;
                default_command := 1%positive; remote_cmd_as_args := false |}
             (Some LSSTATE_WAIT_IDENT) in
  let run :=
    _initiator_identified 1 Sample.peer ;;
    Sample.handle (VersionInfoMessage "0.2.0" 1) ;;
    Sample.handle (ExecuteCommandMesssage None false false false None None 24 80 0 0) in
  state (self (exec run w)) = Some LSSTATE_RUNNING /\
  sent_by run w = [VersionInfoMessage "0.1.0" 1].
Proof.
  destruct (handshake 1 "0.1.0" Sample.hexrep Sample.peer "0.2.0" ["/bin/sh"]
              false false false None None 24 80 0 0
              (Sample.world_of
                 {| sessions := [7%nat]; allowed_identity_hashes := [];
                    allow_all := true; allow_remote_command := false;
                    default_command := 1%positive; remote_cmd_as_args := false |}
                 (Some LSSTATE_WAIT_IDENT)))
    as (_ & Hst & Hsent & _); try reflexivity; [left; reflexivity |].
  split; [exact Hst | exact Hsent].
Defined.

(** ** Instances of the dispatch properties *)

Lemma version_accepted_witness :
  let w := Sample.world (Some LSSTATE_WAIT_VERS) in
  let run := Sample.handle (VersionInfoMessage "0.2.0" 1) in
  sent_by run w = [VersionInfoMessage "0.1.0" 1] /\
  state (self (exec run w)) = Some LSSTATE_WAIT_CMD.
Proof.
  destruct (version_accepted 1 "0.1.0" Sample.hexrep "0.2.0"
              (Sample.world (Some LSSTATE_WAIT_VERS)))
    as (Hsent & Hst & _); try reflexivity.
  split; [exact Hsent | exact Hst].
Defined.

Lemma version_rejected_witness :
  let w := Sample.world (Some LSSTATE_WAIT_VERS) in
  let run := Sample.handle (VersionInfoMessage "0.2.0" 2) in
  sent_by run w = [ErrorMessage "Incompatible protocol" true] /\
  state (self (exec run w)) = Some LSSTATE_ERROR.
Proof.
  destruct (version_rejected 1 "0.1.0" Sample.hexrep (VersionInfoMessage "0.2.0" 2)
              (Sample.world (Some LSSTATE_WAIT_VERS)))
    as (Hsent & Hst & _); try reflexivity.
  { intros sw Heq. discriminate Heq. }
  split; [exact Hsent | exact Hst].
Defined.

Lemma command_expected_witness :
  let w := Sample.world (Some LSSTATE_WAIT_CMD) in
  sent_by (Sample.handle NoopMessage) w
    = [ErrorMessage "Protocol error (LSSTATE_WAIT_CMD)" true] /\
  state (self (exec (Sample.handle NoopMessage) w)) = Some LSSTATE_ERROR.
Proof.
  destruct (command_expected 1 "0.1.0" Sample.hexrep NoopMessage
              (Sample.world (Some LSSTATE_WAIT_CMD)))
    as (Hsent & Hst & _); try reflexivity; try exact I.
  split; [exact Hsent | exact Hst].
Defined.

Lemma message_before_identity_witness :
  let w := Sample.world (Some LSSTATE_WAIT_IDENT) in
  sent_by (Sample.handle NoopMessage) w
    = [ErrorMessage "Protocol error (unexpected message)" true].
Proof.
  apply (message_before_identity 1 "0.1.0" Sample.hexrep NoopMessage
           (Sample.world (Some LSSTATE_WAIT_IDENT))); reflexivity.
Defined.

Lemma dead_session_ignores_witness :
  Sample.handle (Sample.execute 2%positive) (Sample.world (Some LSSTATE_TEARDOWN))
  = (Sample.world (Some LSSTATE_TEARDOWN), Return tt).
Proof.
  apply (dead_session_ignores 1 "0.1.0" Sample.hexrep
           (Sample.execute 2%positive) (Sample.world (Some LSSTATE_TEARDOWN))).
  right. reflexivity.
Defined.

Lemma stdin_delivered_witness :
  let w := Sample.running_with Sample.proc [] [] None in
  let run := handle_all Sample.handle
               [stdin_message Sample.hello false; stdin_message Sample.hello true] in
  exists p', process (self (exec run w)) = Some p' /\
             written p' = [Sample.hello; Sample.hello] /\
             stdin_closed p' = 1%nat.
Proof.
  destruct (stdin_delivered 1 "0.1.0" Sample.hexrep
              [(Sample.hello, false); (Sample.hello, true)] Sample.proc
              (Sample.running_with Sample.proc [] [] None))
    as (_ & _ & _ & p' & Hp & Hw & Hc & _); try reflexivity.
  exists p'. split; [exact Hp |]. split; [exact Hw | exact Hc].
Defined.

Lemma stream_tag_checked_witness :
  let w := Sample.running_with Sample.proc [] [] None in
  let run := Sample.handle (StreamDataMessage STREAM_ID_STDOUT Sample.hello false) in
  sent_by run w = [ErrorMessage "Protocol error (LSSTATE_RUNNING)" true] /\
  state (self (exec run w)) = Some LSSTATE_ERROR.
Proof.
  destruct (stream_tag_checked 1 "0.1.0" Sample.hexrep STREAM_ID_STDOUT
              Sample.hello false (Sample.running_with Sample.proc [] [] None))
    as (Hsent & Hst & _); try reflexivity; [discriminate |].
  split; [exact Hsent | exact Hst].
Defined.

Lemma noop_echoed_witness :
  let w := Sample.world (Some LSSTATE_RUNNING) in
  sent_by (Sample.handle NoopMessage) w = [NoopMessage] /\
  eval (Sample.handle NoopMessage) (Sample.send_fails w) = Raise LinkError.
Proof.
  split.
  - destruct (noop_echoed 1 "0.1.0" Sample.hexrep
                (Sample.world (Some LSSTATE_RUNNING))) as (Hecho & _);
      [reflexivity |].
    unfold sent_by, exec. change Sample.handle with (_handle_message 1 "0.1.0" Sample.hexrep).
    rewrite Hecho by reflexivity. reflexivity.
  - destruct (noop_echoed 1 "0.1.0" Sample.hexrep
                (Sample.send_fails (Sample.world (Some LSSTATE_RUNNING))))
      as (_ & Hfail); [reflexivity |].
    unfold eval. change Sample.handle with (_handle_message 1 "0.1.0" Sample.hexrep).
    rewrite Hfail by reflexivity. reflexivity.
Defined.

Lemma window_resized_witness :
  let w := Sample.running_with Sample.proc [] [] None in
  let s' := self (exec (Sample.handle (WindowSizeMessage 40 132 0 0)) w) in
  (rows s', cols s', hpix s', vpix s') = (40, 132, 0, 0) /\
  winsize <$> process s' = Some (Some (40, 132, 0, 0)).
Proof.
  destruct (window_resized 1 "0.1.0" Sample.hexrep 40 132 0 0
              (Sample.running_with Sample.proc [] [] None))
    as (_ & Hgeo & Hwin & _); [reflexivity |].
  split; [exact Hgeo | exact Hwin].
Defined.

Lemma remote_command_rejected_witness :
  let w := Sample.world (Some LSSTATE_WAIT_CMD) in
  let run := Sample.handle (Sample.execute 2%positive) in
  sent_by run w =
    [ErrorMessage "Remote command line not allowed by listener" true] /\
  process (self (exec run w)) = None.
Proof.
  destruct (remote_command_rejected 1 "0.1.0" Sample.hexrep 2%positive
              "-c" ["id"] false false false None None 24 80 0 0
              (Sample.world (Some LSSTATE_WAIT_CMD)))
    as (Hsent & _ & Hproc & _); try reflexivity.
  split; [exact Hsent | exact Hproc].
Defined.

Lemma remote_command_replaces_default_witness :
  let w := Sample.identified
             (Sample.world_of (Sample.listener true false) (Some LSSTATE_WAIT_CMD)) in
  let run := Sample.handle (Sample.execute 2%positive) in
  objs (exec run w) = objs w /\
  exists p, process (self (exec run w)) = Some p /\ argv p = ["-c"; "id"].
Proof.
  destruct (remote_command_replaces_default 1 "0.1.0" Sample.hexrep 2%positive
              "-c" ["id"] Sample.peer false false false None None 24 80 0 0
              (Sample.identified
                 (Sample.world_of (Sample.listener true false)
                    (Some LSSTATE_WAIT_CMD))))
    as (_ & _ & Hobjs & _ & p & Hp & Hargv & _); try reflexivity.
  split; [exact Hobjs |]. exists p. split; [exact Hp | exact Hargv].
Defined.

Lemma process_start_failure_witness :
  let w := Sample.world (Some LSSTATE_WAIT_CMD) in
  let run := Sample.handle
               (ExecuteCommandMesssage None false false false None None 24 80 0 0) in
  remote_identity (self w) = None /\
  sent_by run w = [ErrorMessage "Unable to start process" true] /\
  state (self (exec run w)) = Some LSSTATE_ERROR.
Proof.
  destruct (process_start_failure 1 "0.1.0" Sample.hexrep ["/bin/sh"]
              false false false None None 24 80 0 0
              (Sample.world (Some LSSTATE_WAIT_CMD)))
    as (Hsent & Hst & _); try reflexivity; [left; reflexivity |].
  split; [reflexivity |]. split; [exact Hsent | exact Hst].
Defined.

Lemma packet_errors_contained_witness :
  let w := Sample.world (Some LSSTATE_RUNNING) in
  Sample.decode [] = Raise DecodeError /\
  sent_by (Sample.received 1 []) w =
    [ErrorMessage "Protocol error (error receiving packet: bad packet)" true] /\
  state (self (exec (Sample.received 1 []) w)) = Some LSSTATE_ERROR.
Proof.
  destruct (packet_errors_contained 1 "0.1.0" Sample.hexrep Sample.decode
              Sample.explain [] (Sample.world (Some LSSTATE_RUNNING)))
    as (_ & Hdecode).
  destruct (Hdecode DecodeError) as (Hsent & Hst);
    [reflexivity | reflexivity | discriminate |].
  split; [reflexivity |]. split; [exact Hsent | exact Hst].
Defined.


(** ** Producer and consumer *)

Lemma pump_returns (w : World) : exists b, pump w = (exec pump w, Return b).
Proof.
  destruct (try_except_any pump_body false w) as (Hno & _ & _).
  fold pump in Hno. unfold exec, eval in *.
  destruct (pump w) as [w' [b | e]]; simpl in *;
    [exists b; reflexivity | exfalso; apply (Hno e); reflexivity].
Qed.

Lemma act_tick (w : World) : act Tick w = (exec pump w, Return tt).
Proof.
  destruct (pump_returns w) as (b & Hb).
  cbn [act]. cbv [mbind M_bind pass mret M_ret]. rewrite Hb. reflexivity.
Qed.

Lemma act_then {A} (a : Activity) (m : M A) (w : World) :
  (act a ;; m) w = m (exec (act a) w).
Proof.
  destruct a; [| reflexivity | reflexivity].
  unfold exec. cbv [mbind M_bind]. rewrite act_tick. reflexivity.
Qed.

Lemma act_step (sid : StreamId) (a : Activity) (w : World) :
  send_raises (messenger w) = false ->
  process (self w) <> None ->
  let w' := exec (act a) w in
  send_raises (messenger w') = false /\
  process (self w') <> None /\
  sent (messenger w') = (sent (messenger w) ++ sent_by (act a) w)%list /\
  (payloads sid (sent_by (act a) w) ++ buf_of sid (self w'))%list
  = (buf_of sid (self w) ++ produced sid [a])%list.
Proof.
  intros Hsend Hproc. cbn zeta. destruct a.
  - assert (Hexec : exec (act Tick) w = exec pump w).
    { unfold exec at 1. rewrite act_tick. reflexivity. }
    assert (Hsent : sent_by (act Tick) w = sent_by pump w).
    { unfold sent_by. rewrite Hexec. reflexivity. }
    rewrite Hexec, Hsent.
    destruct (pump_frame w) as (_ & Hp & _ & _ & _ & _ & _ & Hs & _).
    split; [congruence |]. split; [congruence |].
    split; [apply pump_sent_prefix |].
    unfold produced. cbn. rewrite app_nil_r.
    apply pump_conserves_bytes; assumption.
  - open_world w. unfold stdout_callback. run.
    rewrite drop_all, app_nil_r. unfold produced.
    destruct sid; cbn; rewrite ?app_nil_r; repeat split; assumption.
  - open_world w. unfold stderr_callback. run.
    rewrite drop_all, app_nil_r. unfold produced.
    destruct sid; cbn; rewrite ?app_nil_r; repeat split; assumption.
Qed.

Lemma produced_cons (sid : StreamId) (a : Activity) (l : list Activity) :
  produced sid (a :: l) = (produced sid [a] ++ produced sid l)%list.
Proof. unfold produced. cbn. rewrite app_nil_r. reflexivity. Qed.

Lemma act_all_fifo (sid : StreamId) (l : list Activity) (w : World) :
  send_raises (messenger w) = false ->
  process (self w) <> None ->
  let w' := exec (act_all l) w in
  sent (messenger w') = (sent (messenger w) ++ sent_by (act_all l) w)%list /\
  (payloads sid (sent_by (act_all l) w) ++ buf_of sid (self w'))%list
  = (buf_of sid (self w) ++ produced sid l)%list.
Proof.
  cbn zeta. revert w. induction l as [| a l IH]; intros w Hsend Hproc.
  - unfold sent_by, exec. cbn. rewrite drop_all, !app_nil_r. split; reflexivity.
  - destruct (act_step sid a w Hsend Hproc) as (Hsend1 & Hproc1 & Hlog1 & Hbytes1).
    destruct (IH (exec (act a) w) Hsend1 Hproc1) as (Hlog & Hbytes).
    assert (Hexec : exec (act_all (a :: l)) w = exec (act_all l) (exec (act a) w)).
    { unfold exec at 1. cbn [act_all]. rewrite act_then. reflexivity. }
    assert (Hsent : sent_by (act_all (a :: l)) w
                    = (sent_by (act a) w ++ sent_by (act_all l) (exec (act a) w))%list).
    { unfold sent_by at 1. rewrite Hexec, Hlog, Hlog1, <- app_assoc, drop_app_length.
      reflexivity. }
    rewrite Hexec, Hsent. split.
    + rewrite Hlog, Hlog1, app_assoc. reflexivity.
    + rewrite (produced_cons sid a l), payloads_app, <- app_assoc, Hbytes,
        !app_assoc, Hbytes1. reflexivity.
Qed.

(** X1.  The output path is first-in first-out.  However the scheduler's
    ticks interleave with the process's output callbacks, as long as the
    Messenger accepts the messages and the process handle is there, the
    bytes sent for a stream followed by the bytes still buffered are the
    bytes buffered at the start followed by the bytes the process
    produced since, in that order: no byte is lost, duplicated or
    reordered. *)
Theorem output_fifo (l : list Activity) (w : World) :
  send_raises (messenger w) = false ->
  process (self w) <> None ->
  let w' := exec (act_all l) w in
  (payloads STREAM_ID_STDERR (sent_by (act_all l) w) ++ stderr_buf (self w'))%list
    = (stderr_buf (self w) ++ produced STREAM_ID_STDERR l)%list /\
  (payloads STREAM_ID_STDOUT (sent_by (act_all l) w) ++ stdout_buf (self w'))%list
    = (stdout_buf (self w) ++ produced STREAM_ID_STDOUT l)%list.
Proof.
  intros Hsend Hproc w'. split.
  - exact (proj2 (act_all_fifo STREAM_ID_STDERR l w Hsend Hproc)).
  - exact (proj2 (act_all_fifo STREAM_ID_STDOUT l w Hsend Hproc)).
Qed.

Lemma output_fifo_witness :
  let w := Sample.running_with Sample.proc Sample.hello [] None in
  let l := [Tick; Stdout Sample.hello; Tick] in
  (payloads STREAM_ID_STDOUT (sent_by (act_all l) w)
   ++ stdout_buf (self (exec (act_all l) w)))%list
  = (Sample.hello ++ Sample.hello)%list.
Proof.
  destruct (output_fifo [Tick; Stdout Sample.hello; Tick]
              (Sample.running_with Sample.proc Sample.hello [] None))
    as (_ & Hout); [reflexivity | discriminate |].
  exact Hout.
Defined.

(** ** The exit code comes last *)

(** A tick with output pending sends one chunk and leaves the exit-code
    latch alone. *)
Lemma pump_chunk_tick (w : World) :
  state (self w) = Some LSSTATE_RUNNING ->
  outlet_ready (messenger w) = true ->
  send_raises (messenger w) = false ->
  process (self w) <> None ->
  stderr_buf (self w) <> [] \/ stdout_buf (self w) <> [] ->
  return_code_sent (self (exec pump w)) = return_code_sent (self w) /\
  exists m, sent_by pump w = [m] /\ is_output_chunk m = true.
Proof.
  intros Hst Hready Hsend Hproc Hpending.
  assert (Hlen : (0 <? Z.of_nat (length (stderr_buf (self w)))) = true \/
                 (0 <? Z.of_nat (length (stdout_buf (self w)))) = true).
  { destruct Hpending as [H | H]; [left | right]; apply nonempty_length, H. }
  clear Hpending.
  pump_cases w; sent_done; subst; try discriminate; try congruence;
    try (destruct Hlen; congruence);
    (split; [reflexivity | eexists; split; reflexivity]).
Qed.

(** The tick that finds nothing pending and a return code to report. *)
Lemma pump_exit_tick (rc : Z) (w : World) :
  state (self w) = Some LSSTATE_RUNNING ->
  outlet_ready (messenger w) = true ->
  send_raises (messenger w) = false ->
  stderr_buf (self w) = [] ->
  stdout_buf (self w) = [] ->
  return_code (self w) = Some rc ->
  return_code_sent (self w) = false ->
  sent_by pump w = [CommandExitedMessage rc] /\
  stderr_buf (self (exec pump w)) = [] /\
  stdout_buf (self (exec pump w)) = [] /\
  return_code_sent (self (exec pump w)) = true.
Proof.
  intros Hst Hready Hsend Herr Hout Hrc Hlatch.
  pump_cases w; sent_done; subst; try discriminate.
  injection Hrc as <-. repeat split.
Qed.

(** Ticks with nothing pending and the exit code reported do nothing. *)
Lemma pump_times_idle (n : nat) (w : World) :
  stderr_buf (self w) = [] ->
  stdout_buf (self w) = [] ->
  return_code_sent (self w) = true ->
  sent_by (pump_times n) w = [].
Proof.
  intros Herr Hout Hlatch.
  assert (Hidle : pump w = (w, Return false)).
  { clear n. pump_cases w; subst; try discriminate; reflexivity. }
  induction n as [| n IH].
  - unfold sent_by. cbn. apply drop_all.
  - rewrite pump_times_sent_by.
    assert (Hexec : exec pump w = w) by (unfold exec; rewrite Hidle; reflexivity).
    rewrite Hexec, IH.
    unfold sent_by, exec. rewrite Hidle. cbn. rewrite drop_all. reflexivity.
Qed.

(** X27.  The exit code is the last thing sent.  For a running session
    whose process has terminated with return code [rc], on a ready outlet
    that carries more than 16 bytes and with a Messenger that accepts the
    messages, one tick more than the buffers need to drain sends the
    buffered output as stream chunks and then the command-exited message
    with [rc]; any further ticks send nothing. *)
Theorem exit_code_comes_last (n ne no : nat) (rc : Z) (w : World) :
  state (self w) = Some LSSTATE_RUNNING ->
  outlet_ready (messenger w) = true ->
  send_raises (messenger w) = false ->
  process (self w) <> None ->
  16 < mdu (outlet w) ->
  (length (stderr_buf (self w)) <= ne * Z.to_nat (mdu (outlet w) - 16))%nat ->
  (length (stdout_buf (self w)) <= no * Z.to_nat (mdu (outlet w) - 16))%nat ->
  return_code (self w) = Some rc ->
  return_code_sent (self w) = false ->
  (ne + no < n)%nat ->
  exists chunks,
    sent_by (pump_times n) w = (chunks ++ [CommandExitedMessage rc])%list /\
    forallb is_output_chunk chunks = true.
Proof.
  revert w ne no. induction n as [| n IH];
    intros w ne no Hst Hready Hsend Hproc Hmdu Herr Hout Hrc Hlatch Hn; [lia |].
  rewrite pump_times_sent_by.
  destruct (pump_frame w) as (Hst' & Hp' & Hrc' & Ho' & _ & _ & Hr' & Hs' & _).
  destruct (pump_buffers_step w Hst Hready) as (Hstep_err & Hstep_out).
  assert (Hk : 0 < mdu (outlet w) - 16) by lia.
  set (w1 := exec pump w) in *.
  destruct (Nat.eq_dec (length (stderr_buf (self w))) O) as [Hze | Hnze].
  - apply length_zero_iff_nil in Hze.
    destruct (Hstep_out Hze) as (He1 & Ho1).
    destruct (Nat.eq_dec (length (stdout_buf (self w))) O) as [Hzo | Hnzo].
    + apply length_zero_iff_nil in Hzo.
      destruct (pump_exit_tick rc w Hst Hready Hsend Hze Hzo Hrc Hlatch)
        as (Hsent & He2 & Ho2 & Hl2).
      fold w1 in He2, Ho2, Hl2.
      rewrite Hsent, (pump_times_idle n w1 He2 Ho2 Hl2).
      exists []. split; reflexivity.
    + assert (Hpending : stderr_buf (self w) <> [] \/ stdout_buf (self w) <> []).
      { right. intros Heq. rewrite Heq in Hnzo. simpl in Hnzo. lia. }
      destruct (pump_chunk_tick w Hst Hready Hsend Hproc Hpending)
        as (Hl1 & m & Hsent & Hm).
      fold w1 in Hl1.
      destruct no as [| no]; [simpl in Hout; lia |].
      destruct (IH w1 O no) as (chunks & Hrest & Hall);
        rewrite ?Ho'; try congruence; try lia.
      * rewrite He1. simpl. lia.
      * rewrite Ho1, slice_from_length by exact Hk. simpl in Hout.
        set (k := Z.to_nat (mdu (outlet w) - 16)) in *. clearbody k. lia.
      * rewrite Hsent, Hrest. exists (m :: chunks).
        split; [reflexivity | simpl; rewrite Hm, Hall; reflexivity].
  - assert (Hne : stderr_buf (self w) <> []).
    { intros Heq. rewrite Heq in Hnze. simpl in Hnze. lia. }
    destruct (Hstep_err Hne) as (He1 & Ho1).
    destruct (pump_chunk_tick w Hst Hready Hsend Hproc (or_introl Hne))
      as (Hl1 & m & Hsent & Hm).
    fold w1 in Hl1.
    destruct ne as [| ne]; [simpl in Herr; lia |].
    destruct (IH w1 ne no) as (chunks & Hrest & Hall);
      rewrite ?Ho'; try congruence; try lia.
    + rewrite He1, slice_from_length by exact Hk. simpl in Herr.
      set (k := Z.to_nat (mdu (outlet w) - 16)) in *. clearbody k. lia.
    + rewrite Hsent, Hrest. exists (m :: chunks).
      split; [reflexivity | simpl; rewrite Hm, Hall; reflexivity].
Qed.

Lemma exit_code_comes_last_witness :
  let w := Sample.running_with Sample.proc_eof Sample.hello Sample.hello (Some 0) in
  exists chunks,
    sent_by (pump_times 3) w = (chunks ++ [CommandExitedMessage 0])%list /\
    forallb is_output_chunk chunks = true.
Proof.
  apply (exit_code_comes_last 3 1 1 0
           (Sample.running_with Sample.proc_eof Sample.hello Sample.hello (Some 0)));
    try reflexivity; try discriminate; vm_compute; lia.
Defined.
